(** * ProjectTimer: the timer state machine and the time-accounting record

    A shallow embedding of [helpers.py] and of the [ProjectTimer] class of
    [project_timer.py].  Python [int] is [Z]; [str] is [string] compared
    code point by code point; a [dict] is an association list in insertion
    order; [self] is a record that every method threads explicitly; an
    uncaught exception is an outcome that carries the state reached when it
    was raised. *)

From Stdlib Require Import ZArith List String Ascii Bool Lia QArith.
From Stdlib Require Import OrderedTypeEx.
From Stdlib Require DecimalString DecimalPos DecimalZ.
Import ListNotations.
Local Open Scope Z_scope.
Local Open Scope string_scope.

(* ================================================================== *)
(** ** Python formatting of an [int] *)

(** [str(z)]: the decimal digits, after a minus sign for a negative. *)
Definition str_int (z : Z) : string := DecimalString.NilZero.string_of_int (Z.to_int z).

Definition zeros (n : nat) : string :=
  string_of_list_ascii (repeat "0"%char n).

(** [format(z, "02d")], the [{z:02d}] of an f-string: the sign, then
    zeros up to a width of two characters, then the digits. *)
Definition format_02d (z : Z) : string :=
  let sign := if (z <? 0)%Z then "-" else EmptyString in
  let digits := str_int (Z.abs z) in
  sign ++ zeros (2 - String.length sign - String.length digits) ++ digits.

(* ================================================================== *)
(** ** helpers.py *)

Module Helpers.

(** [convert_seconds_to_hms]: [//] and [%] are floor division and its
    remainder, which on [Z] are [Z.div] and [Z.modulo]. *)
Definition convert_seconds_to_hms (total_seconds : Z) : Z * Z * Z :=
  let hours := total_seconds / 3600 in
  let remaining_seconds := total_seconds mod 3600 in
  let minutes := remaining_seconds / 60 in
  let seconds := remaining_seconds mod 60 in
  (hours, minutes, seconds).

(** [format_time_hm], on an [int]. *)
Definition format_time_hm (seconds : Z) : string :=
  let hours := seconds / 3600 in
  let minutes := (seconds mod 3600) / 60 in
  str_int hours ++ ":" ++ format_02d minutes.

(** [format_time], on an [int]. *)
Definition format_time (seconds : Z) : string :=
  let hours := seconds / 3600 in
  let minutes := (seconds mod 3600) / 60 in
  let seconds := seconds mod 60 in
  format_02d hours ++ ":" ++ format_02d minutes ++ ":" ++ format_02d seconds.

End Helpers.

(* ================================================================== *)
(** ** Python values used by project_timer.py *)

(** The reserved project name of the reverse timer. *)
Definition CountDown : string := "CountDown".

(** Truth value of an expression that holds [None] or a [str]: [None] and
    the empty string are false. *)
Definition truthy (o : option string) : bool :=
  match o with
  | None => false
  | Some t => negb (t =? EmptyString)
  end.

(** [x == "CountDown"] where [x] may be [None]. *)
Definition is_countdown (o : option string) : bool :=
  match o with
  | None => false
  | Some t => t =? CountDown
  end.

(** [str.strip()]: characters are code points below 256; the white space
    among them is 9-13, 28-32, 133 and 160. *)
Definition is_space (c : ascii) : bool :=
  let n := N_of_ascii c in
  (((9 <=? n) && (n <=? 13)) || ((28 <=? n) && (n <=? 32)) ||
   (n =? 133) || (n =? 160))%N.

Fixpoint lstrip (t : string) : string :=
  match t with
  | EmptyString => EmptyString
  | String c r => if is_space c then lstrip r else t
  end.

Fixpoint rstrip (t : string) : string :=
  match t with
  | EmptyString => EmptyString
  | String c r =>
      let r' := rstrip r in
      if is_space c && (r' =? EmptyString) then EmptyString else String c r'
  end.

Definition strip (t : string) : string := rstrip (lstrip t).

(** *** Numbers

    Hours are Python numbers: the [int] literal [0], the float quotient
    [session_time / 3600], float sums and [round(x, 1)].  The embedding is
    generic in their implementation; the one law it relies on is that
    [round] of an [int] is that [int]. *)
Class PyNumber : Type := {
  num : Type;
  of_int : Z -> num;                       (* an [int] used as a number *)
  truediv : Z -> positive -> num;          (* [a / b] on ints *)
  nadd : num -> num -> num;                (* [x + y] *)
  round1 : num -> num;                     (* [round(x, 1)] *)
  round1_of_int : forall n, round1 (of_int n) = of_int n
}.

(** *** Dictionaries

    A [dict] with [str] keys, in insertion order.  Assignment to a present
    key replaces the value where it stands; to a new key it appends. *)
Section Dict.
Context {V : Type}.

Fixpoint dict_get (k : string) (d : list (string * V)) : option V :=
  match d with
  | [] => None
  | (k', v) :: r => if k' =? k then Some v else dict_get k r
  end.

Fixpoint dict_set (k : string) (v : V) (d : list (string * V))
  : list (string * V) :=
  match d with
  | [] => [(k, v)]
  | (k', v') :: r =>
      if k' =? k then (k, v) :: r else (k', v') :: dict_set k v r
  end.

Definition dict_mem (k : string) (d : list (string * V)) : bool :=
  match dict_get k d with
  | Some _ => true
  | None => false
  end.

Definition keys (d : list (string * V)) : list string := map fst d.
End Dict.

(* ================================================================== *)
(** ** project_timer.py *)

Inductive TimerStatus := STOPPED | PAUSED | RUNNING.

Definition status_eqb (a b : TimerStatus) : bool :=
  match a, b with
  | STOPPED, STOPPED | PAUSED, PAUSED | RUNNING, RUNNING => true
  | _, _ => false
  end.

Inductive exn := KeyError | IndexError.

Section Timer.
Context {N : PyNumber}.

(** [{timestamp: hours}] and [{project_name: {timestamp: hours}}]. *)
Definition tlog : Type := list (string * num).
Definition pdata : Type := list (string * tlog).

(** What [DATA_FILE] holds. *)
Inductive file :=
| Absent
| Corrupt
| Content (d : pdata).

(** The [text] of the total label: a string or a number. *)
Inductive label :=
| LStr (t : string)
| LNum (x : num).

(** The attributes of [self] that the timer logic reads or writes,
    followed by the part of the world it acts on.  [run_btn] keeps the
    three fields that the button text renders; [countdown_view] says
    that the bell frame is shown instead of the total frame;
    [after_queue] counts the [update_display] calls scheduled with
    [root.after] and not yet run; [alarms] counts the calls of [alarm];
    [writable] says whether opening [DATA_FILE] for writing succeeds. *)
Record State := mkState {
  status : TimerStatus;
  session_time : Z;
  current_project : option string;
  current_project_hours : num;
  projects_data : pdata;
  run_btn : Z * Z * Z;
  total_label : label;
  countdown_view : bool;
  after_queue : nat;
  alarms : nat;
  data_file : file;
  writable : bool
}.

Definition set_status v s :=
  mkState v (session_time s) (current_project s) (current_project_hours s)
    (projects_data s) (run_btn s) (total_label s) (countdown_view s)
    (after_queue s) (alarms s) (data_file s) (writable s).
Definition set_session_time v s :=
  mkState (status s) v (current_project s) (current_project_hours s)
    (projects_data s) (run_btn s) (total_label s) (countdown_view s)
    (after_queue s) (alarms s) (data_file s) (writable s).
Definition set_current_project v s :=
  mkState (status s) (session_time s) v (current_project_hours s)
    (projects_data s) (run_btn s) (total_label s) (countdown_view s)
    (after_queue s) (alarms s) (data_file s) (writable s).
Definition set_current_project_hours v s :=
  mkState (status s) (session_time s) (current_project s) v
    (projects_data s) (run_btn s) (total_label s) (countdown_view s)
    (after_queue s) (alarms s) (data_file s) (writable s).
Definition set_projects_data v s :=
  mkState (status s) (session_time s) (current_project s)
    (current_project_hours s) v (run_btn s) (total_label s)
    (countdown_view s) (after_queue s) (alarms s) (data_file s)
    (writable s).
Definition set_run_btn v s :=
  mkState (status s) (session_time s) (current_project s)
    (current_project_hours s) (projects_data s) v (total_label s)
    (countdown_view s) (after_queue s) (alarms s) (data_file s)
    (writable s).
Definition set_total_label v s :=
  mkState (status s) (session_time s) (current_project s)
    (current_project_hours s) (projects_data s) (run_btn s) v
    (countdown_view s) (after_queue s) (alarms s) (data_file s)
    (writable s).
Definition set_countdown_view v s :=
  mkState (status s) (session_time s) (current_project s)
    (current_project_hours s) (projects_data s) (run_btn s)
    (total_label s) v (after_queue s) (alarms s) (data_file s)
    (writable s).
Definition set_after_queue v s :=
  mkState (status s) (session_time s) (current_project s)
    (current_project_hours s) (projects_data s) (run_btn s)
    (total_label s) (countdown_view s) v (alarms s) (data_file s)
    (writable s).
Definition set_alarms v s :=
  mkState (status s) (session_time s) (current_project s)
    (current_project_hours s) (projects_data s) (run_btn s)
    (total_label s) (countdown_view s) (after_queue s) v (data_file s)
    (writable s).
Definition set_data_file v s :=
  mkState (status s) (session_time s) (current_project s)
    (current_project_hours s) (projects_data s) (run_btn s)
    (total_label s) (countdown_view s) (after_queue s) (alarms s) v
    (writable s).

(** *** Methods that may raise: state and exception monad *)

Inductive outcome (A : Type) :=
| Ret (a : A) (s : State)
| Raise (e : exn) (s : State).
Arguments Ret {A} a s.
Arguments Raise {A} e s.

Definition M (A : Type) : Type := State -> outcome A.

Definition ret {A} (a : A) : M A := fun s => Ret a s.
Definition raise {A} (e : exn) : M A := fun s => Raise e s.
Definition bind {A B} (m : M A) (f : A -> M B) : M B :=
  fun s =>
    match m s with
    | Ret a s' => f a s'
    | Raise e s' => Raise e s'
    end.
Definition gets {A} (f : State -> A) : M A := fun s => Ret (f s) s.
Definition modify (f : State -> State) : M unit := fun s => Ret tt (f s).

(** [try: m  except Exception: h]. *)
Definition try_except {A} (m h : M A) : M A :=
  fun s =>
    match m s with
    | Ret a s' => Ret a s'
    | Raise _ s' => h s'
    end.

(** The state a call leaves behind, returned or raised. *)
Definition state_of {A} (o : outcome A) : State :=
  match o with
  | Ret _ s => s
  | Raise _ s => s
  end.

End Timer.

Arguments Ret {N A} a s.
Arguments Raise {N A} e s.

Declare Scope timer_scope.
Delimit Scope timer_scope with timer.
Notation "x <- m ;; k" := (bind m (fun x => k))
  (at level 61, m at next level, right associativity) : timer_scope.
Notation "m ;; k" := (bind m (fun _ => k))
  (at level 61, right associativity) : timer_scope.

Section Methods.
Context {N : PyNumber}.
Local Open Scope timer_scope.

(** [round(self.session_time / 3600, 1)]. *)
Definition session_hours (s : State) : num :=
  round1 (truediv (session_time s) 3600).

(** [pause_timer]: the button style and the window title aside, it sets
    the status. *)
Definition pause_timer (s : State) : State := set_status PAUSED s.

(** [alarm]: bell, title flashes and message box; the model counts it. *)
Definition alarm (s : State) : State := set_alarms (S (alarms s)) s.

(** [update_display]: the body of one tick. *)
Definition update_display (s : State) : State :=
  let s1 :=
    if negb (status_eqb (status s) PAUSED) then
      if is_countdown (current_project s)
      then set_session_time (session_time s - 1) s
      else set_session_time (session_time s + 1) s
    else s in
  let s2 :=
    if (session_time s1 <? 0)%Z
    then alarm (pause_timer (set_session_time 0 s1))
    else s1 in
  let s3 :=
    set_run_btn (Helpers.convert_seconds_to_hms (session_time s2)) s2 in
  let total_time :=
    round1 (nadd (current_project_hours s3)
                 (truediv (session_time s3) 3600)) in
  let s4 := set_total_label (LNum (round1 total_time)) s3 in
  if status_eqb (status s4) RUNNING
  then set_after_queue (S (after_queue s4)) s4
  else s4.

Definition resume_timer (s : State) : State :=
  update_display (set_status RUNNING s).

Definition toggle_timer (s : State) : State :=
  if status_eqb (status s) RUNNING then pause_timer s else resume_timer s.

Definition inc_session_time (delta : Z) (s : State) : State :=
  let s1 :=
    if negb (status_eqb (status s) PAUSED) then pause_timer s else s in
  let s2 :=
    if (delta =? 0)%Z then set_session_time 0 s1
    else
      let s' := set_session_time (session_time s1 + delta) s1 in
      if (session_time s' <? 0)%Z then set_session_time 0 s' else s' in
  update_display s2.

(** [json.dump] into [DATA_FILE] inside [try]: a failure is printed and
    the file keeps its content. *)
Definition write_file (s : State) : State :=
  if writable s then set_data_file (Content (projects_data s)) s else s.

(** [save_data]; [now] is [datetime.now().isoformat(timespec='seconds')]
    as read by this call. *)
Definition save_data (now : string) : M unit :=
  fun s =>
    if negb (is_countdown (current_project s)) then
      match current_project s with
      | None => Raise KeyError s
      | Some p =>
          match dict_get p (projects_data s) with
          | None => Raise KeyError s
          | Some log =>
              let log' := dict_set now (session_hours s) log in
              Ret tt
                (write_file
                   (set_projects_data (dict_set p log' (projects_data s)) s))
          end
      end
    else Ret tt s.

(** [get_project_total_time]. *)
Definition get_project_total_time (project_name : option string) : M num :=
  fun s =>
    if negb (truthy (current_project s)) then Ret (of_int 0) s
    else
      match project_name with
      | None => Raise KeyError s
      | Some k =>
          match dict_get k (projects_data s) with
          | None => Raise KeyError s
          | Some log =>
              Ret (round1
                     (fold_left (fun acc e => nadd acc (snd e)) log
                        (of_int 0))) s
          end
      end.

(** One iteration of the inner loop of [get_most_recent_project]; the
    accumulator is [(most_recent_date, most_recent_project)]. *)
Definition recent_step (project_name : string)
    (acc : option string * option string) (date : string)
  : option string * option string :=
  if negb (truthy (fst acc)) ||
     match fst acc with
     | Some d => (d <? date)%string
     | None => false
     end
  then (Some date, Some project_name)
  else acc.

Definition recent_scan (d : pdata) : option string * option string :=
  fold_left
    (fun acc pr => fold_left (recent_step (fst pr)) (keys (snd pr)) acc)
    d (None, None).

(** [get_most_recent_project]. *)
Definition get_most_recent_project : M (option string) :=
  fun s =>
    match projects_data s with
    | [] => Ret None s
    | _ :: _ =>
        match snd (recent_scan (projects_data s)) with
        | Some p => Ret (Some p) s
        | None =>
            match nth_error (keys (projects_data s)) 1 with
            | Some k => Ret (Some k) s
            | None => Raise IndexError s
            end
        end
    end.

(** [load_data]. *)
Definition load_data : M unit :=
  fun s =>
    let failed s := set_current_project None (set_projects_data [] s) in
    match data_file s with
    | Absent => Ret tt (failed s)
    | Corrupt => Ret tt (failed s)
    | Content d =>
        try_except
          (modify (set_projects_data d) ;;
           p <- get_most_recent_project ;;
           modify (set_current_project p) ;;
           h <- (if truthy p then get_project_total_time p
                 else ret (of_int 0)) ;;
           modify (set_current_project_hours h))
          (modify failed) s
    end.

(** [update_project_list]: the combobox values aside, it falls back on
    the first listed name, which is ["CountDown"]. *)
Definition update_project_list (s : State) : State :=
  let projects := CountDown :: keys (projects_data s) in
  match projects with
  | first :: _ =>
      if negb (truthy (current_project s))
      then set_current_project (Some first) s
      else s
  | [] => s
  end.

(** [__init__]: the attribute defaults, [load_data], then [setup_gui]. *)
Definition __init__ (f : file) (w : bool) : State :=
  let s0 := mkState STOPPED 0 None (of_int 0) [] (0, 0, 0)
              (LNum (of_int 0)) false O O f w in
  let s1 := state_of (load_data s0) in
  let s2 := set_total_label (LNum (current_project_hours s1)) s1 in
  update_project_list s2.

(** [on_project_selected], first statement: the session is saved when
    it has run and a project is active. *)
Definition save_if_running (now : string) : M unit :=
  st <- gets session_time ;;
  cp <- gets current_project ;;
  if (0 <? st)%Z && truthy cp then save_data now else ret tt.

(** [on_project_selected], the [if]/[elif]/[else] on the selection. *)
Definition switch_to (selected : string) : M (option Z) :=
  if selected =? CountDown then
    modify (fun s =>
      set_countdown_view true
        (set_total_label (LStr EmptyString)
           (set_run_btn (1, 0, 0)
              (set_session_time 3600
                 (set_current_project_hours (of_int 0)
                    (set_current_project (Some CountDown) s)))))) ;;
    ret None
  else
    d <- gets projects_data ;;
    if dict_mem selected d then
      modify (set_current_project (Some selected)) ;;
      h <- get_project_total_time (Some selected) ;;
      modify (fun s =>
        set_countdown_view false
          (set_run_btn (0, 0, 0)
             (set_session_time 0
                (set_total_label (LNum (round1 h))
                   (set_current_project_hours h s))))) ;;
      ret None
    else ret (Some 0).

(** [on_project_selected]; [selected] is the combobox text. *)
Definition on_project_selected (selected now : string) : M (option Z) :=
  save_if_running now ;;
  switch_to selected.

(** [add_new_project]; [text] is the combobox text. *)
Definition add_new_project (text now : string) : M unit :=
  let project_name := strip text in
  d <- gets projects_data ;;
  if negb (project_name =? EmptyString) && negb (dict_mem project_name d) then
    modify (fun s =>
      set_current_project (Some project_name)
        (set_projects_data (dict_set project_name [] (projects_data s)) s)) ;;
    save_data now ;;
    modify update_project_list ;;
    modify (fun s =>
      set_total_label (LStr "0")
        (set_current_project_hours (of_int 0) s))
  else ret tt.

(** [on_closing]; the window is destroyed when it returns. *)
Definition on_closing (now : string) : M unit :=
  (st <- gets status ;;
   if status_eqb st RUNNING then modify pause_timer else ret tt) ;;
  save_data now.

(** *** The event loop

    What the host delivers: a click on the timer button, on one of the
    [+], [-], [0] buttons, a combobox selection, a project creation, a
    scheduled [update_display], the window being closed.  An exception
    that leaves a handler is reported by the toolkit and the loop goes
    on from the state reached; the loop ends when [on_closing] returns. *)
Inductive event :=
| Toggle
| Adjust (delta : Z)
| Select (selected now : string)
| Create (text now : string)
| Tick
| Close (now : string).

Definition handle (e : event) (s : State) : State :=
  match e with
  | Toggle => toggle_timer s
  | Adjust delta => inc_session_time delta s
  | Select selected now => state_of (on_project_selected selected now s)
  | Create text now => state_of (add_new_project text now s)
  | Tick =>
      match after_queue s with
      | O => s
      | S k => update_display (set_after_queue k s)
      end
  | Close now => state_of (on_closing now s)
  end.

Fixpoint run (evs : list event) (s : State) : State :=
  match evs with
  | [] => s
  | Close now :: rest =>
      match on_closing now s with
      | Ret _ s' => s'
      | Raise _ s' => run rest s'
      end
  | e :: rest => run rest (handle e s)
  end.

(** [n] consecutive ticks. *)
Definition ticks (n : nat) (s : State) : State :=
  Nat.iter n update_display s.

(** The active project is resolvable: none, the empty name, the reverse
    timer, or a key of the record. *)
Definition resolvable (s : State) : bool :=
  match current_project s with
  | None => true
  | Some p =>
      (p =? EmptyString) || (p =? CountDown) || dict_mem p (projects_data s)
  end.

(** The active project is set, and is the reverse timer or a key of the
    record: what [save_data] needs in order not to raise. *)
Definition active (s : State) : bool :=
  match current_project s with
  | None => false
  | Some p => (p =? CountDown) || dict_mem p (projects_data s)
  end.

End Methods.

(* ================================================================== *)
(** ** A number implementation to run the model on

    Exact arithmetic: an [int] stays an [int], a quotient or a sum with a
    float is a reduced fraction, and [round(x, 1)] takes a float to the
    nearest tenth, ties to the even tenth. *)

Inductive exact :=
| EInt (z : Z)
| EFloat (q : Q).

Definition exact_q (x : exact) : Q :=
  match x with
  | EInt z => inject_Z z
  | EFloat q => q
  end.

Definition nearest_tenth (q : Q) : Q :=
  let a := 10 * Qnum q in
  let b := Zpos (Qden q) in
  let f := a / b in
  let r := a mod b in
  let t :=
    match (2 * r ?= b)%Z with
    | Lt => f
    | Gt => f + 1
    | Eq => if Z.even f then f else f + 1
    end in
  Qred (t # 10).

#[export] Instance exact_number : PyNumber := {|
  num := exact;
  of_int := EInt;
  truediv := fun a b => EFloat (Qred (a # b));
  nadd := fun x y =>
    match x, y with
    | EInt a, EInt b => EInt (a + b)
    | _, _ => EFloat (Qred (Qplus (exact_q x) (exact_q y)))
    end;
  round1 := fun x =>
    match x with
    | EInt z => EInt z
    | EFloat q => EFloat (nearest_tenth q)
    end;
  round1_of_int := fun n => eq_refl
|}.

(** A state with the given status, session time, active project and
    record; nothing scheduled, no alarm yet, the file absent and writable. *)
Definition sample (st : TimerStatus) (t : Z) (cp : option string)
    (d : @pdata exact_number) : @State exact_number :=
  mkState st t cp (EInt 0) d (0, 0, 0) (LNum (EInt 0)) false O O Absent true.

(** What one tick makes of the session time before the clamp at zero. *)
Definition accrued {N : PyNumber} (s : State) : Z :=
  if negb (status_eqb (status s) PAUSED) then
    if is_countdown (current_project s)
    then session_time s - 1
    else session_time s + 1
  else session_time s.

(** The sum of the hours of a log, in the order of the log. *)
Definition sum_hours {N : PyNumber} (log : tlog) : num :=
  fold_left nadd (map snd log) (of_int 0).

(** What a commit at [now] of the session of [s], whose active project [p]
    had the log [log], leaves in [s']: the entry under [now] in the log of
    [p], every other log and the order of the projects untouched, and the
    file rewritten with the whole record when it can be written. *)
Definition committed {N : PyNumber} (now p : string) (log : tlog)
    (s s' : State) : Prop :=
  dict_get p (projects_data s') = Some (dict_set now (session_hours s) log) /\
  (forall q, q <> p ->
     dict_get q (projects_data s') = dict_get q (projects_data s)) /\
  keys (projects_data s') = keys (projects_data s) /\
  (writable s = true -> data_file s' = Content (projects_data s')) /\
  (writable s = false -> data_file s' = data_file s).

(** Sample data: two timestamps, and a session of half an hour running
    on project A, which already holds half an hour and sits next to an
    empty project B. *)
Definition stamp1 : string := "2025-01-01T10:00:00".
Definition stamp2 : string := "2025-01-02T09:30:00".

Definition record_AB : @pdata exact_number :=
  [("A", [(stamp1, EFloat (1 # 2))]); ("B", [])].

Definition working_on_A : @State exact_number :=
  sample RUNNING 1800 (Some "A") record_AB.

(** The record of the given projects, in this order, none of which has
    an entry. *)
Definition no_entries {N : PyNumber} (names : list string) : pdata :=
  map (fun k => (k, [])) names.

(** Nothing is scheduled while the timer has never been started. *)
Definition idle_when_stopped {N : PyNumber} (s : State) : Prop :=
  status s = STOPPED -> after_queue s = O.

(** The timestamps of a record with their projects, in the order in which
    [get_most_recent_project] visits them. *)
Definition entries {N : PyNumber} (d : pdata) : list (string * string) :=
  flat_map (fun pr => map (fun date => (fst pr, date)) (keys (snd pr))) d.

(** What the scan knows after the entries [seen]: nothing when there were
    none, otherwise an entry among them whose timestamp none exceeds. *)
Definition scan_inv (seen : list (string * string))
    (acc : option string * option string) : Prop :=
  match acc with
  | (None, None) => seen = []
  | (Some date, Some p) =>
      In (p, date) seen /\
      Forall (fun e => (snd e <=? date) = true) seen
  | _ => False
  end.

(** *** Reading a display back

    Decoders for the texts that [helpers.py] prints, to state that what is
    shown determines what was meant. *)

(** The decimal numeral [t] as an integer. *)
Definition read_int (t : string) : option Z :=
  option_map Z.of_int (DecimalString.NilZero.int_of_string t).

(** The pieces of [t] between its colons. *)
Fixpoint split_colon (t : string) : list string :=
  match t with
  | EmptyString => [EmptyString]
  | String c r =>
      if (c =? ":")%char then EmptyString :: split_colon r
      else
        match split_colon r with
        | x :: xs => String c x :: xs
        | [] => [String c EmptyString]
        end
  end.

(** The seconds that [H:M:S] stands for. *)
Definition read_clock (t : string) : option Z :=
  match split_colon t with
  | [a; b; c] =>
      match read_int a, read_int b, read_int c with
      | Some h, Some m, Some sec => Some (h * 3600 + m * 60 + sec)
      | _, _, _ => None
      end
  | _ => None
  end.

(** The minutes that [H:M] stands for. *)
Definition read_hm (t : string) : option Z :=
  match split_colon t with
  | [a; b] =>
      match read_int a, read_int b with
      | Some h, Some m => Some (h * 60 + m)
      | _, _ => None
      end
  | _ => None
  end.

Fixpoint no_colon (t : string) : bool :=
  match t with
  | EmptyString => true
  | String c r => negb (c =? ":")%char && no_colon r
  end.

(** The text of the timer button for the fields that [run_btn] keeps:
    [f"{hours:02d}h {minutes:02d}m {seconds:02d}"]. *)
Definition button_text (hms : Z * Z * Z) : string :=
  let '(hours, minutes, seconds) := hms in
  format_02d hours ++ "h " ++ format_02d minutes ++ "m " ++
  format_02d seconds.

Definition is_digit (c : ascii) : bool :=
  ((48 <=? N_of_ascii c) && (N_of_ascii c <=? 57))%N.

Fixpoint all_digits (t : string) : bool :=
  match t with
  | EmptyString => true
  | String c r => is_digit c && all_digits r
  end.

(** The file holds the record that is in memory. *)
Definition synced {N : PyNumber} (s : State) : Prop :=
  data_file s = Content (projects_data s).

(** The event creates a project under the reserved name. *)
Definition creates_countdown (e : event) : bool :=
  match e with
  | Create text _ => strip text =? CountDown
  | _ => false
  end.

(** Every project of [d] is in [d'], with every timestamp of its log. *)
Definition grows {N : PyNumber} (d d' : pdata) : Prop :=
  forall q log,
    dict_get q d = Some log ->
    exists log',
      dict_get q d' = Some log' /\
      forall date, dict_mem date log = true -> dict_mem date log' = true.

(** *** The window during [alarm]

    What [alarm] does to the window, which the timer logic above only
    counts.  [ring] is [root.bell()], [nap] is [time.sleep(0.5)] after
    [root.update()], [show_dialog] is [messagebox.showinfo]; [bell_ok]
    says whether the bell is available.  [original_title] is a local
    variable of [alarm] that is assigned on its last line only: reading it
    before raises [UnboundLocalError], which the bare [except] catches. *)
Inductive title_text :=
| TimesUp
| Title (t : string).

Record Window := mkWindow {
  title : title_text;
  bells : nat;
  naps : nat;
  dialogs : nat
}.

Definition set_title (t : title_text) (w : Window) : Window :=
  mkWindow t (bells w) (naps w) (dialogs w).
Definition ring (w : Window) : Window :=
  mkWindow (title w) (S (bells w)) (naps w) (dialogs w).
Definition nap (w : Window) : Window :=
  mkWindow (title w) (bells w) (S (naps w)) (dialogs w).
Definition show_dialog (w : Window) : Window :=
  mkWindow (title w) (bells w) (naps w) (S (dialogs w)).

Inductive tried :=
| Done (w : Window)
| Caught (w : Window).

Definition window_of (r : tried) : Window :=
  match r with
  | Done w => w
  | Caught w => w
  end.

(** One turn of [for i in range(6)]. *)
Definition flash (original_title : option title_text) (i : nat)
    (w : Window) : tried :=
  match (if Nat.even i then Some TimesUp else original_title) with
  | Some t => Done (nap (set_title t w))
  | None => Caught w
  end.

Fixpoint flashes (original_title : option title_text) (turns : list nat)
    (w : Window) : tried :=
  match turns with
  | [] => Done w
  | i :: rest =>
      match flash original_title i w with
      | Done w' => flashes original_title rest w'
      | Caught w' => Caught w'
      end
  end.

(** [alarm], on the window; the second component is [original_title]
    when the function returns. *)
Definition alarm_window (bell_ok : bool) (w : Window)
  : Window * option title_text :=
  let original_title : option title_text := None in
  let body :=
    if bell_ok then
      match flashes original_title (seq 0 6) (ring w) with
      | Done w' =>
          match original_title with
          | Some t => Done (set_title t w')
          | None => Caught w'
          end
      | Caught w' => Caught w'
      end
    else Caught w in
  let w1 := show_dialog (window_of body) in
  (w1, Some (title w1)).

(* ================================================================== *)
(** ** Theorems *)

(** Reads a field through the setters, and nothing else. *)
Ltac fields :=
  cbn [status session_time current_project current_project_hours
       projects_data run_btn total_label countdown_view after_queue alarms
       data_file writable set_status set_session_time set_current_project
       set_current_project_hours set_projects_data set_run_btn
       set_total_label set_countdown_view set_after_queue set_alarms
       set_data_file] in *.

(** C9: for every non-negative [s] the clock fields are [s div 3600],
    [(s mod 3600) div 60] and [s mod 60]; they recompose to [s]; zero gives
    [(0,0,0)]; and the hours field is not reduced modulo 24, so a whole
    number [h] of hours, however large, comes back as [h]. *)
Theorem convert_seconds_to_hms_decomposition (s : Z) (Hs : 0 <= s) :
  let '(h, m, sec) := Helpers.convert_seconds_to_hms s in
  h = s / 3600 /\ m = (s mod 3600) / 60 /\ sec = s mod 60 /\
  h * 3600 + m * 60 + sec = s /\
  0 <= h /\ 0 <= m < 60 /\ 0 <= sec < 60 /\
  Helpers.convert_seconds_to_hms 0 = (0, 0, 0) /\
  (86400 < s -> 24 <= h) /\
  (forall k, 0 <= k -> fst (fst (Helpers.convert_seconds_to_hms (k * 3600))) = k).
Proof.
  unfold Helpers.convert_seconds_to_hms; cbv zeta.
  assert (E60 : (s mod 3600) mod 60 = s mod 60).
  { rewrite (Z.mod_eq s 3600) by lia.
    replace (s - 3600 * (s / 3600)) with (s + (- 60 * (s / 3600)) * 60) by lia.
    apply Z.mod_add; lia. }
  pose proof (Z.mod_pos_bound s 3600 ltac:(lia)) as Hr.
  pose proof (Z.div_mod s 3600 ltac:(lia)) as Hd.
  pose proof (Z.div_mod (s mod 3600) 60 ltac:(lia)) as Hd'.
  pose proof (Z.mod_pos_bound (s mod 3600) 60 ltac:(lia)) as Hr'.
  repeat apply conj; try reflexivity; try lia.
  intros k _. cbn [fst]. apply Z.div_mul; lia.
Qed.

Lemma convert_seconds_to_hms_decomposition_witness :
  0 <= 7325 /\
  (let '(h, m, sec) := Helpers.convert_seconds_to_hms 7325 in
   h = 2 /\ m = 2 /\ sec = 5 /\ h * 3600 + m * 60 + sec = 7325).
Proof.
  assert (H0 : 0 <= 7325) by lia.
  split; [exact H0 |].
  pose proof (convert_seconds_to_hms_decomposition 7325 H0) as H.
  cbv beta iota zeta delta [Helpers.convert_seconds_to_hms] in H |- *.
  destruct H as (Hh & Hm & Hs & Hsum & _).
  repeat apply conj; [exact Hh | exact Hm | exact Hs | exact Hsum].
Defined.

(* ------------------------------------------------------------------ *)
(** *** One tick *)

Section TickFacts.
Context {N : PyNumber}.

(** Every field after [update_display], from the fields before. *)
Lemma update_display_fields (s : State) :
  let t := accrued s in
  let s' := update_display s in
  session_time s' = Z.max 0 t /\
  status s' = (if (t <? 0)%Z then PAUSED else status s) /\
  alarms s' = (if (t <? 0)%Z then S (alarms s) else alarms s) /\
  after_queue s' =
    (if status_eqb (status s') RUNNING then S (after_queue s)
     else after_queue s) /\
  current_project s' = current_project s /\
  current_project_hours s' = current_project_hours s /\
  projects_data s' = projects_data s /\
  countdown_view s' = countdown_view s /\
  data_file s' = data_file s /\
  writable s' = writable s.
Proof.
  destruct s as [st t cp cph pd rb tl cv aq al df w].
  unfold accrued, update_display, alarm, pause_timer; cbn.
  destruct st, (is_countdown cp); cbn;
    match goal with
    | |- context [(?x <? 0)%Z] => destruct (Z.ltb_spec x 0)
    end; cbn; repeat apply conj; try reflexivity; lia.
Qed.

Lemma update_display_session_time (s : State) :
  session_time (update_display s) = Z.max 0 (accrued s).
Proof. apply (update_display_fields s). Qed.

Lemma update_display_nonneg (s : State) :
  0 <= session_time (update_display s).
Proof. rewrite update_display_session_time; lia. Qed.

Lemma set_status_same (s : State) : set_status (status s) s = s.
Proof. destruct s; reflexivity. Qed.

(** Ticks while paused at a non-negative time change neither the time,
    nor the status, nor the number of alarms. *)
Lemma update_display_paused (s : State) :
  status s = PAUSED -> 0 <= session_time s ->
  session_time (update_display s) = session_time s /\
  status (update_display s) = PAUSED /\
  alarms (update_display s) = alarms s /\
  after_queue (update_display s) = after_queue s.
Proof.
  intros Hst Ht.
  destruct (update_display_fields s) as (E1 & E2 & E3 & E4 & _).
  assert (Ha : accrued s = session_time s)
    by (unfold accrued; rewrite Hst; reflexivity).
  rewrite Ha in *.
  destruct (Z.ltb_spec (session_time s) 0); [lia |].
  rewrite E2, Hst in E4. rewrite E1, E2, E3, E4, Hst.
  repeat apply conj; try reflexivity; lia.
Qed.

End TickFacts.

(** C3, as the code has it: a tick in [PAUSED] at a non-negative session
    time leaves the session time (and the status) as they are; in every
    other status, [STOPPED] as well as [RUNNING], it adds one second for a
    project and removes one for the reverse timer, then clamps at zero. *)
Theorem update_display_accrues_unless_paused {N : PyNumber} (s : State)
    (Hnonneg : 0 <= session_time s) :
  (status s = PAUSED ->
     session_time (update_display s) = session_time s /\
     status (update_display s) = PAUSED) /\
  (status s <> PAUSED ->
     session_time (update_display s) =
       Z.max 0 (session_time s +
                if is_countdown (current_project s) then -1 else 1)).
Proof.
  split.
  - intros Hst. destruct (update_display_paused s Hst Hnonneg) as (E1 & E2 & _).
    split; assumption.
  - intros Hst. rewrite update_display_session_time. unfold accrued.
    destruct (status s); try congruence; cbn;
      destruct (is_countdown (current_project s)); f_equal; lia.
Qed.

Lemma update_display_accrues_unless_paused_witness :
  0 <= 42 /\
  session_time (update_display (sample PAUSED 42 (Some "A") [("A", [])])) = 42 /\
  session_time (update_display (sample RUNNING 42 (Some "A") [("A", [])])) = 43.
Proof.
  assert (H0 : 0 <= 42) by lia.
  split; [exact H0 |].
  split.
  - exact (proj1 (proj1 (update_display_accrues_unless_paused
                           (sample PAUSED 42 (Some "A") [("A", [])]) H0)
                    eq_refl)).
  - refine (proj2 (update_display_accrues_unless_paused
                     (sample RUNNING 42 (Some "A") [("A", [])]) H0) _).
    discriminate.
Defined.

(** C3, as stated, fails in [STOPPED]: the guard of [update_display] is
    [status != PAUSED], so a tick there adds a second. *)
Lemma update_display_stopped_accrues :
  let s := sample STOPPED 0 (Some "A") [("A", [])] in
  status s = STOPPED /\
  session_time s = 0 /\
  session_time (update_display s) = 1 /\
  session_time (update_display s) <> session_time s.
Proof. cbn. repeat apply conj; try reflexivity; discriminate. Qed.

(* ------------------------------------------------------------------ *)
(** *** Manual adjustment *)

(** C4: whatever the state, [inc_session_time] ends in [PAUSED]; with a
    zero delta the session time is zero, otherwise it is the old time plus
    the delta, clamped at zero; the pause comes first (pausing beforehand
    changes nothing), no alarm is raised and no tick is scheduled; and
    from 30 seconds a delta of -60 gives 0. *)
Theorem inc_session_time_spec {N : PyNumber} (delta : Z) (s : State) :
  let s' := inc_session_time delta s in
  status s' = PAUSED /\
  session_time s' =
    (if (delta =? 0)%Z then 0 else Z.max 0 (session_time s + delta)) /\
  0 <= session_time s' /\
  alarms s' = alarms s /\
  after_queue s' = after_queue s /\
  inc_session_time delta (pause_timer s) = s' /\
  session_time (inc_session_time (-60) (set_session_time 30 s)) = 0 /\
  status (inc_session_time (-60) (set_session_time 30 s)) = PAUSED.
Proof.
  cbv zeta.
  assert (Hpause : forall d x,
             inc_session_time d x = inc_session_time d (pause_timer x)).
  { intros d x. unfold inc_session_time, pause_timer.
    destruct x as [st t cp cph pd rb tl cv aq al df w]; destruct st;
      reflexivity. }
  assert (Hgen : forall d x,
             status (inc_session_time d x) = PAUSED /\
             session_time (inc_session_time d x) =
               (if (d =? 0)%Z then 0 else Z.max 0 (session_time x + d)) /\
             alarms (inc_session_time d x) = alarms x /\
             after_queue (inc_session_time d x) = after_queue x).
  { intros d x. rewrite Hpause.
    unfold inc_session_time, pause_timer. cbn.
    set (y := if (d =? 0)%Z then _ else _).
    assert (Hy : status y = PAUSED /\ 0 <= session_time y /\
                 session_time y =
                   (if (d =? 0)%Z then 0 else Z.max 0 (session_time x + d)) /\
                 alarms y = alarms x /\ after_queue y = after_queue x).
    { subst y. destruct (d =? 0)%Z; cbn.
      - repeat apply conj; try reflexivity; lia.
      - destruct (Z.ltb_spec (session_time x + d) 0); cbn;
          repeat apply conj; try reflexivity; lia. }
    destruct Hy as (Y1 & Y2 & Y3 & Y4 & Y5).
    destruct (update_display_paused y Y1 Y2) as (U1 & U2 & U3 & U4).
    rewrite U1, U2, U3, U4. repeat apply conj; congruence. }
  destruct (Hgen delta s) as (G1 & G2 & G3 & G4).
  destruct (Hgen (-60) (set_session_time 30 s)) as (K1 & K2 & _).
  repeat apply conj; try assumption.
  - rewrite G2. destruct (delta =? 0)%Z; lia.
  - symmetry. apply Hpause.
Qed.

Lemma inc_session_time_spec_witness :
  let s' := inc_session_time (-60) (sample RUNNING 30 (Some "A") record_AB) in
  status s' = PAUSED /\ session_time s' = 0.
Proof.
  destruct (inc_session_time_spec (-60)
              (sample RUNNING 30 (Some "A") record_AB)) as (H1 & H2 & _).
  split; [exact H1 | exact H2].
Defined.

(* ------------------------------------------------------------------ *)
(** *** Dictionaries *)

Section DictFacts.
Context {V : Type}.
Implicit Types (d : list (string * V)) (k : string) (v : V).

Lemma dict_get_set_same k v d : dict_get k (dict_set k v d) = Some v.
Proof.
  induction d as [| [k' v'] r IH]; cbn.
  - rewrite String.eqb_refl. reflexivity.
  - destruct (k' =? k) eqn:E; cbn.
    + rewrite String.eqb_refl. reflexivity.
    + rewrite E. exact IH.
Qed.

Lemma dict_get_set_other k k' v d :
  k' <> k -> dict_get k' (dict_set k v d) = dict_get k' d.
Proof.
  intros Hne. apply String.eqb_neq in Hne.
  induction d as [| [k0 v0] r IH]; cbn.
  - rewrite String.eqb_sym, Hne. reflexivity.
  - destruct (k0 =? k) eqn:E; cbn.
    + apply String.eqb_eq in E. subst k0.
      rewrite (String.eqb_sym k k'), Hne. reflexivity.
    + destruct (k0 =? k'); [reflexivity | exact IH].
Qed.

Lemma dict_mem_set k k' v d :
  dict_mem k' (dict_set k v d) = (k' =? k) || dict_mem k' d.
Proof.
  unfold dict_mem. destruct (k' =? k) eqn:E.
  - apply String.eqb_eq in E. subst k'.
    rewrite dict_get_set_same. reflexivity.
  - apply String.eqb_neq in E.
    rewrite (dict_get_set_other k k' v d E). reflexivity.
Qed.

Lemma dict_set_present_keys k v d :
  dict_mem k d = true -> keys (dict_set k v d) = keys d.
Proof.
  unfold dict_mem, keys.
  induction d as [| [k' v'] r IH]; cbn; [discriminate |].
  destruct (k' =? k) eqn:E; cbn.
  - apply String.eqb_eq in E. subst k'. reflexivity.
  - intros H. rewrite (IH H). reflexivity.
Qed.

Lemma dict_set_present_length k v d :
  dict_mem k d = true ->
  List.length (dict_set k v d) = List.length d.
Proof.
  intros H. rewrite <- (length_map fst (dict_set k v d)).
  change (map fst (dict_set k v d)) with (keys (dict_set k v d)).
  rewrite (dict_set_present_keys k v d H). apply length_map.
Qed.

Lemma dict_set_fresh k v d :
  dict_mem k d = false -> dict_set k v d = (d ++ [(k, v)])%list.
Proof.
  unfold dict_mem.
  induction d as [| [k' v'] r IH]; cbn; [reflexivity |].
  destruct (k' =? k) eqn:E; [discriminate |].
  intros H. rewrite (IH H). reflexivity.
Qed.

Lemma dict_mem_get k d :
  dict_mem k d = true -> exists v, dict_get k d = Some v.
Proof.
  unfold dict_mem. destruct (dict_get k d) as [v |]; [| discriminate].
  intros _. exists v. reflexivity.
Qed.

Lemma dict_get_mem k d v : dict_get k d = Some v -> dict_mem k d = true.
Proof. unfold dict_mem. intros ->. reflexivity. Qed.

End DictFacts.

(* ------------------------------------------------------------------ *)
(** *** Commits *)

Section CommitFacts.
Context {N : PyNumber}.

Lemma save_data_countdown (now : string) (s : State) :
  is_countdown (current_project s) = true -> save_data now s = Ret tt s.
Proof. intros H. unfold save_data. rewrite H. reflexivity. Qed.

(** With a project of the record active, [save_data] returns, commits,
    and touches nothing but the record and the file. *)
Lemma save_data_project (now p : string) (log : tlog) (s : State) :
  current_project s = Some p -> p <> CountDown ->
  dict_get p (projects_data s) = Some log ->
  exists s',
    save_data now s = Ret tt s' /\
    committed now p log s s' /\
    status s' = status s /\
    session_time s' = session_time s /\
    current_project s' = current_project s /\
    current_project_hours s' = current_project_hours s /\
    alarms s' = alarms s /\
    after_queue s' = after_queue s /\
    writable s' = writable s.
Proof.
  intros Hcp Hcd Hlog.
  unfold save_data. rewrite Hcp. cbn [is_countdown].
  rewrite (proj2 (String.eqb_neq p CountDown) Hcd). cbn [negb].
  rewrite Hlog. eexists. split; [reflexivity |].
  unfold committed, write_file.
  destruct (writable s) eqn:Hw; cbn; rewrite ?Hw;
    repeat apply conj; try reflexivity; try discriminate; try assumption.
  all: try apply dict_get_set_same.
  all: try (intros q Hq; apply dict_get_set_other; exact Hq).
  all: apply dict_set_present_keys; eapply dict_get_mem; exact Hlog.
Qed.

Lemma save_if_running_unfold (now : string) (s : State) :
  save_if_running now s =
    if (0 <? session_time s)%Z && truthy (current_project s)
    then save_data now s
    else Ret tt s.
Proof.
  unfold save_if_running, bind, gets, ret.
  destruct (_ && _); reflexivity.
Qed.

Lemma on_project_selected_unfold (selected now : string) (s : State) :
  on_project_selected selected now s =
    match save_if_running now s with
    | Ret _ s1 => switch_to selected s1
    | Raise e s1 => Raise e s1
    end.
Proof. reflexivity. Qed.

(** The branches on the selection leave the record, the file, the
    status and the counters alone. *)
Lemma switch_to_keeps_record (selected : string) (s : State) :
  let s' := state_of (switch_to selected s) in
  projects_data s' = projects_data s /\
  data_file s' = data_file s /\
  writable s' = writable s /\
  status s' = status s /\
  alarms s' = alarms s /\
  after_queue s' = after_queue s.
Proof.
  unfold switch_to, bind, modify, gets, ret, get_project_total_time.
  destruct (selected =? CountDown); cbn.
  - repeat apply conj; reflexivity.
  - destruct (dict_mem selected (projects_data s)); cbn.
    + destruct (negb (selected =? EmptyString)); cbn;
        [destruct (dict_get selected (projects_data s)); cbn |];
        repeat apply conj; reflexivity.
    + repeat apply conj; reflexivity.
Qed.

Lemma committed_transport (now p : string) (log : tlog) (s s1 s' : State) :
  committed now p log s s1 ->
  projects_data s' = projects_data s1 -> data_file s' = data_file s1 ->
  committed now p log s s'.
Proof.
  unfold committed. intros (C1 & C2 & C3 & C4 & C5) Ep Ef.
  rewrite Ep, Ef. repeat apply conj; assumption.
Qed.

End CommitFacts.

(** C1, as the code has it.  Let the session of [s] be on a project [p] of
    the record, not the reverse timer, with [log] its log.  A commit puts
    [round(session_time / 3600, 1)] under the timestamp [now] in that log:
    appended when [now] is new to the log, written over the entry already
    under [now] otherwise.  A selection commits exactly when the session
    time is positive, a close with a positive session time commits as
    well, and both rewrite the file when it is writable.  With the reverse
    timer active neither writes anything, and with no project active a
    selection writes nothing. *)
Theorem commit_on_switch_and_close {N : PyNumber} (s : State)
    (selected now : string) :
  (forall p log,
     current_project s = Some p -> p <> EmptyString -> p <> CountDown ->
     dict_get p (projects_data s) = Some log ->
     let h := session_hours s in
     dict_get now (dict_set now h log) = Some h /\
     (dict_mem now log = false ->
        dict_set now h log = (log ++ [(now, h)])%list) /\
     (dict_mem now log = true ->
        List.length (dict_set now h log) = List.length log) /\
     (0 < session_time s ->
        committed now p log s (state_of (on_project_selected selected now s)) /\
        committed now p log s (state_of (on_closing now s))) /\
     (session_time s <= 0 ->
        projects_data (state_of (on_project_selected selected now s)) =
          projects_data s /\
        data_file (state_of (on_project_selected selected now s)) =
          data_file s)) /\
  (is_countdown (current_project s) = true ->
     projects_data (state_of (on_project_selected selected now s)) =
       projects_data s /\
     data_file (state_of (on_project_selected selected now s)) = data_file s /\
     projects_data (state_of (on_closing now s)) = projects_data s /\
     data_file (state_of (on_closing now s)) = data_file s) /\
  (truthy (current_project s) = false ->
     projects_data (state_of (on_project_selected selected now s)) =
       projects_data s /\
     data_file (state_of (on_project_selected selected now s)) = data_file s).
Proof.
  split; [| split].
  - intros p log Hcp Hne Hcd Hlog h.
    split; [apply dict_get_set_same |].
    split; [apply dict_set_fresh |].
    split; [apply dict_set_present_length |].
    split.
    + intros Hpos. split.
      * destruct (save_data_project now p log s Hcp Hcd Hlog)
          as (s1 & Hsave & Hc & _).
        rewrite on_project_selected_unfold, save_if_running_unfold.
        rewrite (proj2 (Z.ltb_lt 0 (session_time s)) Hpos), Hcp.
        cbn [truthy andb].
        rewrite (proj2 (String.eqb_neq p EmptyString) Hne). cbn [negb].
        rewrite Hsave.
        destruct (switch_to_keeps_record selected s1) as (Ep & Ef & _).
        exact (committed_transport now p log s s1 _ Hc Ep Ef).
      * unfold on_closing, bind, gets, modify, ret.
        destruct (status_eqb (status s) RUNNING).
        -- destruct (save_data_project now p log (pause_timer s) Hcp Hcd Hlog)
             as (s1 & Hsave & Hc & _).
           rewrite Hsave. exact Hc.
        -- destruct (save_data_project now p log s Hcp Hcd Hlog)
             as (s1 & Hsave & Hc & _).
           rewrite Hsave. exact Hc.
    + intros Hle.
      rewrite on_project_selected_unfold, save_if_running_unfold.
      rewrite (proj2 (Z.ltb_ge 0 (session_time s)) Hle). cbn [andb].
      destruct (switch_to_keeps_record selected s) as (Ep & Ef & _).
      split; assumption.
  - intros Hcd.
    assert (Hsel : state_of (on_project_selected selected now s) =
                   state_of (switch_to selected s)).
    { rewrite on_project_selected_unfold, save_if_running_unfold.
      rewrite (save_data_countdown now s Hcd).
      destruct (_ && _); reflexivity. }
    destruct (switch_to_keeps_record selected s) as (Ep & Ef & _).
    rewrite Hsel. split; [exact Ep |]. split; [exact Ef |].
    unfold on_closing, bind, gets, modify, ret.
    destruct (status_eqb (status s) RUNNING).
    + rewrite (save_data_countdown now (pause_timer s) Hcd).
      split; reflexivity.
    + rewrite (save_data_countdown now s Hcd). split; reflexivity.
  - intros Ht.
    rewrite on_project_selected_unfold, save_if_running_unfold.
    rewrite Ht, andb_false_r.
    destruct (switch_to_keeps_record selected s) as (Ep & Ef & _).
    split; assumption.
Qed.

Lemma commit_on_switch_and_close_witness :
  0 < session_time working_on_A /\
  committed stamp2 "A" [(stamp1, EFloat (1 # 2))] working_on_A
    (state_of (on_project_selected "B" stamp2 working_on_A)) /\
  dict_get "A"
    (projects_data (state_of (on_project_selected "B" stamp2 working_on_A))) =
    Some [(stamp1, EFloat (1 # 2)); (stamp2, EFloat (1 # 2))].
Proof.
  assert (Hpos : 0 < session_time working_on_A) by (cbn; lia).
  destruct (commit_on_switch_and_close working_on_A "B" stamp2) as [HA _].
  assert (Hne : "A" <> EmptyString) by discriminate.
  assert (Hcd : "A" <> CountDown) by discriminate.
  destruct (HA "A" [(stamp1, EFloat (1 # 2))] eq_refl Hne Hcd eq_refl)
    as (_ & _ & _ & Hc & _).
  destruct (Hc Hpos) as [Hsel _].
  split; [exact Hpos |]. split; [exact Hsel |].
  exact (proj1 Hsel).
Defined.

(** C1, as stated, fails when two commits of one project fall in the same
    second: the log is keyed by the timestamp, so the second commit writes
    over the entry of the first and the log does not grow. *)
Lemma commit_same_second_overwrites :
  let s := sample PAUSED 3600 (Some "A") record_AB in
  let s' := state_of (on_project_selected "A" stamp1 s) in
  0 < session_time s /\
  dict_get "A" (projects_data s) = Some [(stamp1, EFloat (1 # 2))] /\
  dict_get "A" (projects_data s') = Some [(stamp1, EFloat 1)] /\
  dict_get "A" (projects_data s') <>
    Some ([(stamp1, EFloat (1 # 2))] ++ [(stamp1, EFloat 1)])%list.
Proof.
  cbv zeta. split; [cbn; lia |].
  split; [reflexivity |].
  split; [reflexivity |].
  vm_compute. discriminate.
Qed.

(* ------------------------------------------------------------------ *)
(** *** Selecting and creating projects *)

Section SelectFacts.
Context {N : PyNumber}.

Lemma dict_mem_keys {V W : Type} (k : string)
    (d : list (string * V)) (d' : list (string * W)) :
  keys d = keys d' -> dict_mem k d = dict_mem k d'.
Proof.
  unfold dict_mem, keys. revert d'.
  induction d as [| [k1 v1] r IH]; intros [| [k2 v2] r'] H; cbn in *;
    try discriminate; [reflexivity |].
  injection H as -> Hr.
  destruct (k2 =? k); [reflexivity | apply IH; exact Hr].
Qed.

(** When the active project is resolvable the first statement of
    [on_project_selected] returns; it keeps the session, the order of
    the record and, unless it commits, the whole state. *)
Lemma save_if_running_resolvable (now : string) (s : State) :
  resolvable s = true ->
  exists s1,
    save_if_running now s = Ret tt s1 /\
    status s1 = status s /\
    session_time s1 = session_time s /\
    current_project s1 = current_project s /\
    current_project_hours s1 = current_project_hours s /\
    alarms s1 = alarms s /\
    after_queue s1 = after_queue s /\
    keys (projects_data s1) = keys (projects_data s) /\
    ((0 <? session_time s)%Z && truthy (current_project s) &&
       negb (is_countdown (current_project s)) = false -> s1 = s).
Proof.
  intros Hres. rewrite save_if_running_unfold.
  destruct ((0 <? session_time s)%Z && truthy (current_project s)) eqn:G.
  - destruct (is_countdown (current_project s)) eqn:Hcd.
    + exists s. rewrite (save_data_countdown now s Hcd).
      repeat apply conj; reflexivity.
    + apply andb_prop in G. destruct G as [_ Ht].
      unfold resolvable in Hres. unfold truthy in Ht.
      destruct (current_project s) as [p |] eqn:Hcp; [| discriminate].
      cbn in Hcd. rewrite Hcd in Hres.
      apply negb_true_iff in Ht. rewrite Ht in Hres. cbn in Hres.
      destruct (dict_mem_get p _ Hres) as [log Hlog].
      apply String.eqb_neq in Hcd.
      destruct (save_data_project now p log s Hcp Hcd Hlog)
        as (s1 & Hs & Hc & E1 & E2 & E3 & E4 & E5 & E6 & _).
      exists s1. destruct Hc as (_ & _ & Hk & _).
      rewrite E3, Hcp.
      repeat apply conj; try assumption; try reflexivity.
      cbn. discriminate.
  - exists s. repeat apply conj; reflexivity.
Qed.

Lemma switch_to_absent (selected : string) (s : State) :
  dict_mem selected (projects_data s) = false -> selected <> CountDown ->
  switch_to selected s = Ret (Some 0) s.
Proof.
  intros Habs Hcd. unfold switch_to.
  rewrite (proj2 (String.eqb_neq selected CountDown) Hcd).
  unfold bind, gets. rewrite Habs. reflexivity.
Qed.

End SelectFacts.

(** C7, as the code has it: selecting a name that is neither in the record
    nor the reverse timer raises nothing and returns 0; the active
    project, the session time and the status stay; but the save of the
    running session comes before the lookup, so the state left is the one
    after that first statement, and it is the state before the call only
    when the session time is not positive, no project is active or the
    reverse timer is. *)
Theorem select_absent_project {N : PyNumber} (s : State)
    (selected now : string)
    (Habs : dict_mem selected (projects_data s) = false)
    (Hcd : selected <> CountDown)
    (Hres : resolvable s = true) :
  exists s',
    on_project_selected selected now s = Ret (Some 0) s' /\
    save_if_running now s = Ret tt s' /\
    current_project s' = current_project s /\
    session_time s' = session_time s /\
    status s' = status s /\
    ((0 <? session_time s)%Z && truthy (current_project s) &&
       negb (is_countdown (current_project s)) = false -> s' = s).
Proof.
  destruct (save_if_running_resolvable now s Hres)
    as (s1 & Hs & E1 & E2 & E3 & _ & _ & _ & Hk & Hsame).
  exists s1. rewrite on_project_selected_unfold, Hs.
  rewrite switch_to_absent; [| | exact Hcd].
  - repeat apply conj; try assumption; reflexivity.
  - rewrite (dict_mem_keys selected _ _ Hk). exact Habs.
Qed.

Lemma select_absent_project_witness :
  resolvable working_on_A = true /\
  exists s',
    on_project_selected "Z" stamp2 working_on_A = Ret (Some 0) s' /\
    current_project s' = Some "A" /\ session_time s' = 1800.
Proof.
  assert (Hres : resolvable working_on_A = true) by reflexivity.
  assert (Hcd : "Z" <> CountDown) by discriminate.
  split; [exact Hres |].
  destruct (select_absent_project working_on_A "Z" stamp2 eq_refl Hcd Hres)
    as (s' & H1 & _ & H3 & H4 & _).
  exists s'. split; [exact H1 |]. split; [exact H3 | exact H4].
Defined.

(** C7, as stated, fails: with half an hour on A, selecting the unknown
    name Z commits an entry to A and rewrites the file. *)
Lemma select_absent_project_commits :
  let s' := state_of (on_project_selected "Z" stamp2 working_on_A) in
  dict_mem "Z" (projects_data working_on_A) = false /\
  dict_get "A" (projects_data s') =
    Some [(stamp1, EFloat (1 # 2)); (stamp2, EFloat (1 # 2))] /\
  projects_data s' <> projects_data working_on_A /\
  data_file working_on_A = Absent /\
  data_file s' = Content (projects_data s').
Proof.
  cbv zeta. split; [reflexivity |].
  split; [reflexivity |].
  split; [vm_compute; discriminate |].
  split; reflexivity.
Qed.

Section CreateFacts.
Context {N : PyNumber}.

Lemma add_new_project_rejected (text now : string) (s : State) :
  strip text = EmptyString \/ dict_mem (strip text) (projects_data s) = true ->
  add_new_project text now s = Ret tt s.
Proof.
  unfold add_new_project, bind, gets. intros [He | Hm].
  - rewrite He. reflexivity.
  - rewrite Hm, andb_false_r. reflexivity.
Qed.

Lemma add_new_project_created (text now : string) (s : State) :
  strip text <> EmptyString -> dict_mem (strip text) (projects_data s) = false ->
  exists s',
    add_new_project text now s = Ret tt s' /\
    current_project s' = Some (strip text) /\
    dict_mem (strip text) (projects_data s') = true /\
    keys (projects_data s') = (keys (projects_data s) ++ [strip text])%list /\
    (forall q, q <> strip text ->
       dict_get q (projects_data s') = dict_get q (projects_data s)) /\
    current_project_hours s' = of_int 0 /\
    total_label s' = LStr "0" /\
    (strip text <> CountDown -> writable s = true ->
       data_file s' = Content (projects_data s')) /\
    (strip text = CountDown -> data_file s' = data_file s) /\
    status s' = status s /\
    after_queue s' = after_queue s.
Proof.
  unfold add_new_project, bind, gets.
  intros Hne Hfresh.
  rewrite (proj2 (String.eqb_neq _ _) Hne), Hfresh. cbn [negb andb].
  unfold modify at 1.
  set (s1 := set_current_project (Some (strip text))
               (set_projects_data
                  (dict_set (strip text) [] (projects_data s)) s)).
  assert (Hk1 : keys (projects_data s1) =
                (keys (projects_data s) ++ [strip text])%list).
  { subst s1; cbn. rewrite (dict_set_fresh _ _ _ Hfresh).
    unfold keys. rewrite map_app. reflexivity. }
  assert (Hupd : forall x, current_project x = Some (strip text) ->
                           update_project_list x = x).
  { intros x Hx. unfold update_project_list. rewrite Hx. cbn.
    rewrite (proj2 (String.eqb_neq _ _) Hne). reflexivity. }
  destruct (String.eqb_spec (strip text) CountDown) as [Hcd | Hcd].
  - rewrite (save_data_countdown now s1)
      by (subst s1; cbn; rewrite Hcd; reflexivity).
    unfold modify, ret. rewrite (Hupd s1 eq_refl).
    eexists. split; [reflexivity |]. cbn.
    repeat apply conj; try reflexivity.
    + apply dict_get_mem with (v := []). apply dict_get_set_same.
    + exact Hk1.
    + intros q Hq. apply dict_get_set_other. exact Hq.
    + intros Hcd'. contradiction.
  - destruct (save_data_project now (strip text) [] s1 eq_refl Hcd
                (dict_get_set_same _ _ _))
      as (s2 & Hs & Hc & Est & _ & Ecp & _ & _ & Eaq & Ew).
    rewrite Hs. unfold modify, ret. rewrite (Hupd s2 Ecp).
    destruct Hc as (C1 & C2 & C3 & C4 & _).
    eexists. split; [reflexivity |]. cbn -[keys dict_mem dict_get].
    repeat apply conj; try reflexivity.
    + exact Ecp.
    + eapply dict_get_mem. exact C1.
    + rewrite C3. exact Hk1.
    + intros q Hq. rewrite (C2 q Hq). subst s1; cbn.
      apply dict_get_set_other. exact Hq.
    + intros _ Hw. apply C4. exact Hw.
    + intros Hcd'. contradiction.
    + exact Est.
    + exact Eaq.
Qed.

End CreateFacts.

(** C6, as the code has it: when the stripped text is empty or already a
    key of the record, [add_new_project] returns without raising and
    leaves the whole state, record and file included, as it was;
    otherwise it returns with the name added at the end of the record and
    made the active project, every other log untouched, the stored total
    zero and the label showing 0, and the file rewritten with the record
    when it is writable and the name is not the reserved one. *)
Theorem add_new_project_spec {N : PyNumber} (s : State) (text now : string) :
  let name := strip text in
  (name = EmptyString \/ dict_mem name (projects_data s) = true ->
     add_new_project text now s = Ret tt s) /\
  (name <> EmptyString -> dict_mem name (projects_data s) = false ->
     exists s',
       add_new_project text now s = Ret tt s' /\
       current_project s' = Some name /\
       dict_mem name (projects_data s') = true /\
       keys (projects_data s') = (keys (projects_data s) ++ [name])%list /\
       (forall q, q <> name ->
          dict_get q (projects_data s') = dict_get q (projects_data s)) /\
       current_project_hours s' = of_int 0 /\
       total_label s' = LStr "0" /\
       (name <> CountDown -> writable s = true ->
          data_file s' = Content (projects_data s')) /\
       (name = CountDown -> data_file s' = data_file s)).
Proof.
  cbv zeta. split.
  - apply add_new_project_rejected.
  - intros Hne Hfresh.
    destruct (add_new_project_created text now s Hne Hfresh)
      as (s' & H1 & H2 & H3 & H4 & H5 & H6 & H7 & H8 & H9 & _).
    exists s'. repeat apply conj; assumption.
Qed.

Lemma add_new_project_spec_witness :
  strip "  C " = "C" /\
  (exists s',
     add_new_project "  C " stamp2 working_on_A = Ret tt s' /\
     current_project s' = Some "C" /\
     keys (projects_data s') = ["A"; "B"; "C"]) /\
  add_new_project " B" stamp2 working_on_A = Ret tt working_on_A /\
  add_new_project "   " stamp2 working_on_A = Ret tt working_on_A.
Proof.
  destruct (add_new_project_spec working_on_A "  C " stamp2) as [_ Hnew].
  destruct (add_new_project_spec working_on_A " B" stamp2) as [Hdup _].
  destruct (add_new_project_spec working_on_A "   " stamp2) as [Hblank _].
  split; [reflexivity |]. split; [| split].
  - assert (Hne : strip "  C " <> EmptyString) by (vm_compute; discriminate).
    destruct (Hnew Hne eq_refl) as (s' & H1 & H2 & _ & H4 & _).
    exists s'. split; [exact H1 |]. split; [exact H2 | exact H4].
  - apply Hdup. right. reflexivity.
  - apply Hblank. left. reflexivity.
Defined.

(** C6, as stated, fails: an empty or duplicate name is not an error, the
    call returns like any other; and a created project is selected with
    the session time as it was and with the session already written into
    its log. *)
Lemma add_new_project_keeps_session :
  let s' := state_of (add_new_project "C" stamp2 working_on_A) in
  add_new_project EmptyString stamp2 working_on_A = Ret tt working_on_A /\
  add_new_project "A" stamp2 working_on_A = Ret tt working_on_A /\
  session_time s' = 1800 /\
  session_time s' <> 0 /\
  dict_get "C" (projects_data s') = Some [(stamp2, EFloat (1 # 2))] /\
  dict_get "C" (projects_data s') <> Some [].
Proof.
  cbv zeta. repeat apply conj; try reflexivity; vm_compute; discriminate.
Qed.

(* ------------------------------------------------------------------ *)
(** *** Totals *)

Lemma fold_hours_sum {N : PyNumber} (log : tlog) (a : num) :
  fold_left (fun acc e => nadd acc (snd e)) log a =
  fold_left nadd (map snd log) a.
Proof.
  revert a. induction log as [| e r IH]; intros a; cbn;
    [reflexivity | apply IH].
Qed.

(** C8, as the code has it: with a project active (neither [None] nor the
    empty name) and [name] a key of the record, [get_project_total_time]
    returns the sum of the hours of the log of [name] rounded to one
    decimal, which is 0 for an empty log, and changes no state; with no
    project active it returns 0 whatever the record holds. *)
Theorem get_project_total_time_sum {N : PyNumber} (s : State)
    (name : string) (log : tlog)
    (Hlog : dict_get name (projects_data s) = Some log) :
  (truthy (current_project s) = true ->
     get_project_total_time (Some name) s = Ret (round1 (sum_hours log)) s /\
     (log = [] -> get_project_total_time (Some name) s = Ret (of_int 0) s)) /\
  (truthy (current_project s) = false ->
     get_project_total_time (Some name) s = Ret (of_int 0) s).
Proof.
  unfold get_project_total_time, sum_hours. split; intros Ht; rewrite Ht; cbn.
  - rewrite Hlog, fold_hours_sum. split; [reflexivity |].
    intros ->. cbn. rewrite round1_of_int. reflexivity.
  - reflexivity.
Qed.

Lemma get_project_total_time_sum_witness :
  dict_get "A" (projects_data working_on_A) = Some [(stamp1, EFloat (1 # 2))] /\
  get_project_total_time (Some "A") working_on_A =
    Ret (EFloat (1 # 2)) working_on_A /\
  get_project_total_time (Some "B") working_on_A = Ret (EInt 0) working_on_A.
Proof.
  split; [reflexivity |]. split.
  - exact (proj1 (proj1 (get_project_total_time_sum working_on_A "A"
                           [(stamp1, EFloat (1 # 2))] eq_refl) eq_refl)).
  - exact (proj2 (proj1 (get_project_total_time_sum working_on_A "B"
                           [] eq_refl) eq_refl) eq_refl).
Defined.

(** C8, as stated, fails: the result also depends on the active project.
    Two states with the same record and the same argument give different
    totals, because with no project active the total is 0.  In a run this
    shows on a record with a project of empty name: selecting it stores a
    total of 0 next to a log that holds an hour and a half. *)
Lemma get_project_total_time_reads_current_project :
  let s1 := sample STOPPED 0 (Some "A") record_AB in
  let s2 := sample STOPPED 0 None record_AB in
  let s3 := run [Select EmptyString stamp2]
              (__init__
                 (Content [(EmptyString, [(stamp1, EFloat (3 # 2))])])
                 true) in
  projects_data s1 = projects_data s2 /\
  get_project_total_time (Some "A") s1 = Ret (EFloat (1 # 2)) s1 /\
  get_project_total_time (Some "A") s2 = Ret (EInt 0) s2 /\
  EFloat (1 # 2) <> EInt 0 /\
  current_project s3 = Some EmptyString /\
  dict_get EmptyString (projects_data s3) = Some [(stamp1, EFloat (3 # 2))] /\
  current_project_hours s3 = EInt 0.
Proof.
  cbv zeta. repeat apply conj; try reflexivity. discriminate.
Qed.

(* ------------------------------------------------------------------ *)
(** *** The most recent project *)

Lemma recent_scan_no_entries {N : PyNumber} (names : list string) :
  recent_scan (no_entries names) = (None, None).
Proof.
  unfold recent_scan. generalize (@None string, @None string).
  induction names as [| k r IH]; intros acc; cbn; [reflexivity | apply IH].
Qed.

Section StringOrder.

Lemma leb_empty (t : string) : (EmptyString <=? t) = true.
Proof. destruct t; reflexivity. Qed.

Lemma ltb_leb (a b : string) : (a <? b) = true -> (a <=? b) = true.
Proof. unfold String.ltb, String.leb. destruct (a ?= b); easy. Qed.

Lemma nltb_leb (a b : string) : (a <? b) = false -> (b <=? a) = true.
Proof.
  unfold String.ltb, String.leb. rewrite (String.compare_antisym b a).
  destruct (a ?= b); easy.
Qed.

Lemma leb_cases (a b : string) :
  (a <=? b) = true <-> a = b \/ String_as_OT.lt a b.
Proof.
  unfold String.leb. split.
  - destruct (a ?= b) eqn:E; try discriminate; intros _.
    + left. apply String.compare_eq_iff, E.
    + right. apply String_as_OT.cmp_lt, E.
  - intros [-> | H].
    + pose proof (proj2 (String_as_OT.cmp_eq b b) eq_refl) as E.
      unfold String_as_OT.cmp in E. rewrite E. reflexivity.
    + apply String_as_OT.cmp_lt in H. unfold String_as_OT.cmp in H.
      rewrite H. reflexivity.
Qed.

Lemma leb_trans (a b c : string) :
  (a <=? b) = true -> (b <=? c) = true -> (a <=? c) = true.
Proof.
  rewrite !leb_cases. intros [-> | H1] [-> | H2]; auto.
  right. eapply String_as_OT.lt_trans; eassumption.
Qed.

End StringOrder.

Section LatestFacts.
Context {N : PyNumber}.

Lemma recent_dates_entries (name : string) (dates : list string)
    (acc : option string * option string) :
  fold_left (recent_step name) dates acc =
  fold_left (fun a e => recent_step (fst e) a (snd e))
    (map (fun date => (name, date)) dates) acc.
Proof.
  revert acc. induction dates as [| d r IH]; intros acc; cbn;
    [reflexivity | apply IH].
Qed.

Lemma recent_scan_entries (d : pdata) :
  recent_scan d =
  fold_left (fun a e => recent_step (fst e) a (snd e)) (entries d)
    (None, None).
Proof.
  unfold recent_scan. generalize (@None string, @None string).
  induction d as [| pr r IH]; intros acc; [reflexivity |].
  cbn [fold_left entries flat_map].
  rewrite fold_left_app, <- recent_dates_entries. apply IH.
Qed.

Lemma scan_inv_step (seen : list (string * string)) (e : string * string)
    (acc : option string * option string) :
  scan_inv seen acc ->
  scan_inv (seen ++ [e]) (recent_step (fst e) acc (snd e)).
Proof.
  destruct e as [p date], acc as [[d0 |] [p0 |]]; cbn [scan_inv fst snd];
    try contradiction.
  - intros [Hin Hall]. unfold recent_step. cbn [fst snd truthy].
    destruct (negb (negb (d0 =? EmptyString)) || (d0 <? date)) eqn:G; cbn [scan_inv].
    + assert (Hle : (d0 <=? date) = true).
      { apply orb_prop in G. destruct G as [G | G].
        - rewrite negb_involutive in G. apply String.eqb_eq in G. subst d0.
          apply leb_empty.
        - apply ltb_leb, G. }
      split; [apply in_or_app; right; left; reflexivity |].
      apply Forall_app. split.
      * eapply Forall_impl; [| exact Hall].
        intros x Hx. cbv beta in Hx |- *.
        eapply leb_trans; [exact Hx | exact Hle].
      * constructor; [| constructor]. cbn.
        apply (proj2 (leb_cases date date)). left. reflexivity.
    + apply orb_false_elim in G. destruct G as [_ G].
      split; [apply in_or_app; left; exact Hin |].
      apply Forall_app. split; [exact Hall |].
      constructor; [| constructor]. cbn. apply nltb_leb, G.
  - intros ->. unfold recent_step. cbn.
    split; [left; reflexivity |].
    constructor; [| constructor]. cbn.
    apply (proj2 (leb_cases date date)). left. reflexivity.
Qed.

Lemma scan_inv_fold (es seen : list (string * string))
    (acc : option string * option string) :
  scan_inv seen acc ->
  scan_inv (seen ++ es)
    (fold_left (fun a e => recent_step (fst e) a (snd e)) es acc).
Proof.
  revert seen acc. induction es as [| e r IH]; intros seen acc H; cbn.
  - rewrite app_nil_r. exact H.
  - replace (seen ++ e :: r)%list with ((seen ++ [e]) ++ r)%list
      by (rewrite <- app_assoc; reflexivity).
    apply IH, scan_inv_step, H.
Qed.

Lemma in_entries (d : pdata) (p date : string) :
  In (p, date) (entries d) <->
  exists log, In (p, log) d /\ In date (keys log).
Proof.
  unfold entries. rewrite in_flat_map. split.
  - intros ([q log] & Hin & Hm). cbn in Hm.
    apply in_map_iff in Hm. destruct Hm as (x & E & Hx).
    injection E as -> ->. exists log. split; assumption.
  - intros (log & Hin & Hd). exists (p, log). split; [exact Hin |].
    cbn. apply in_map_iff. exists date. split; [reflexivity | exact Hd].
Qed.

(** When the record holds an entry at all, [get_most_recent_project]
    returns a project whose log holds a timestamp that no timestamp of
    the record exceeds. *)
Lemma get_most_recent_project_latest (s : State) (q : string) (logq : tlog)
    (dq : string) :
  In (q, logq) (projects_data s) -> In dq (keys logq) ->
  exists p logp date,
    get_most_recent_project s = Ret (Some p) s /\
    In (p, logp) (projects_data s) /\
    In date (keys logp) /\
    forall q' log' d',
      In (q', log') (projects_data s) -> In d' (keys log') ->
      (d' <=? date) = true.
Proof.
  intros Hq Hdq.
  assert (He : In (q, dq) (entries (projects_data s)))
    by (apply in_entries; exists logq; split; assumption).
  pose proof (scan_inv_fold (entries (projects_data s)) [] (None, None)
                eq_refl) as Hinv.
  rewrite <- recent_scan_entries in Hinv. cbn [app] in Hinv.
  unfold get_most_recent_project.
  destruct (projects_data s) as [| pr rest] eqn:Hd; [contradiction |].
  destruct (recent_scan (pr :: rest)) as [[date |] [p |]];
    cbn [scan_inv] in Hinv; try contradiction.
  - destruct Hinv as [Hin Hall]. apply in_entries in Hin.
    destruct Hin as (logp & Hp & Hdate).
    exists p, logp, date. cbn [snd].
    repeat apply conj; try assumption; [reflexivity |].
    intros q' log' d' Hq' Hd'.
    assert (H : In (q', d') (entries (pr :: rest)))
      by (apply in_entries; exists log'; split; assumption).
    exact (proj1 (Forall_forall _ _) Hall _ H).
  - rewrite Hinv in He. contradiction.
Qed.

End LatestFacts.

(** C5, the fallback as the code runs it: on a record of projects that
    all have an empty log, [get_most_recent_project] returns the second
    project in creation order, and raises [IndexError] when there is only
    one; it never returns the first. *)
Theorem get_most_recent_project_no_entries {N : PyNumber} (s : State)
    (k1 : string) (rest : list string)
    (Hrec : projects_data s = no_entries (k1 :: rest)) :
  get_most_recent_project s =
    match rest with
    | [] => Raise IndexError s
    | k2 :: _ => Ret (Some k2) s
    end.
Proof.
  unfold get_most_recent_project. rewrite Hrec, recent_scan_no_entries.
  destruct rest as [| k2 r]; reflexivity.
Qed.

Lemma get_most_recent_project_no_entries_witness :
  get_most_recent_project (sample STOPPED 0 None [("A", []); ("B", [])]) =
    Ret (Some "B") (sample STOPPED 0 None [("A", []); ("B", [])]) /\
  get_most_recent_project (sample STOPPED 0 None [("A", [])]) =
    Raise IndexError (sample STOPPED 0 None [("A", [])]).
Proof.
  split.
  - exact (get_most_recent_project_no_entries
             (sample STOPPED 0 None [("A", []); ("B", [])]) "A" ["B"] eq_refl).
  - exact (get_most_recent_project_no_entries
             (sample STOPPED 0 None [("A", [])]) "A" [] eq_refl).
Defined.

(** What the fallback does to a start-up: a file that holds one project
    without entries is read, the [IndexError] is caught by [load_data],
    and the session starts on an empty record. *)
Example init_single_empty_project :
  let s := __init__ (Content [("A", [])]) true in
  projects_data s = [] /\ current_project s = Some CountDown.
Proof. split; reflexivity. Qed.

(* ------------------------------------------------------------------ *)
(** *** The reverse timer *)

Section CountdownFacts.
Context {N : PyNumber}.

Lemma ticks_S (k : nat) (s : State) :
  ticks (S k) s = update_display (ticks k s).
Proof. reflexivity. Qed.

Lemma ticks_add (a b : nat) (s : State) :
  ticks (a + b) s = ticks a (ticks b s).
Proof.
  induction a as [| a IH]; [reflexivity |].
  cbn [Nat.add]. rewrite !ticks_S, IH. reflexivity.
Qed.

(** While the counter has seconds left, running ticks only count down. *)
Lemma countdown_ticks_running (k : nat) (s : State) :
  status s = RUNNING -> is_countdown (current_project s) = true ->
  Z.of_nat k <= session_time s ->
  session_time (ticks k s) = session_time s - Z.of_nat k /\
  status (ticks k s) = RUNNING /\
  alarms (ticks k s) = alarms s /\
  current_project (ticks k s) = current_project s.
Proof.
  intros Hst Hcd. induction k as [| k IH]; intros Hk.
  - cbn. repeat apply conj; try reflexivity; [lia | exact Hst].
  - destruct IH as (I1 & I2 & I3 & I4); [lia |].
    rewrite ticks_S.
    destruct (update_display_fields (ticks k s))
      as (E1 & E2 & E3 & _ & E5 & _).
    assert (Ha : accrued (ticks k s) = session_time s - Z.of_nat (S k)).
    { unfold accrued. rewrite I2, I4, Hcd, I1. cbn [status_eqb negb]. lia. }
    rewrite Ha in *.
    destruct (Z.ltb_spec (session_time s - Z.of_nat (S k)) 0); [lia |].
    rewrite E1, E2, E3, E5.
    repeat apply conj; try assumption. lia.
Qed.

(** The tick at zero: clamp, pause, alarm. *)
Lemma countdown_tick_at_zero (s : State) :
  status s = RUNNING -> is_countdown (current_project s) = true ->
  session_time s = 0 ->
  session_time (update_display s) = 0 /\
  status (update_display s) = PAUSED /\
  alarms (update_display s) = S (alarms s).
Proof.
  intros Hst Hcd Ht.
  destruct (update_display_fields s) as (E1 & E2 & E3 & _).
  assert (Ha : accrued s = -1)
    by (unfold accrued; rewrite Hst, Hcd, Ht; reflexivity).
  rewrite Ha in *. cbn in E1, E2, E3.
  repeat apply conj; assumption.
Qed.

Lemma paused_ticks (k : nat) (s : State) :
  status s = PAUSED -> 0 <= session_time s ->
  session_time (ticks k s) = session_time s /\
  status (ticks k s) = PAUSED /\
  alarms (ticks k s) = alarms s.
Proof.
  intros Hst Ht. induction k as [| k (I1 & I2 & I3)].
  - repeat apply conj; [reflexivity | exact Hst | reflexivity].
  - rewrite ticks_S.
    destruct (update_display_paused (ticks k s) I2) as (U1 & U2 & U3 & _);
      [lia |].
    rewrite U1, U2, U3.
    repeat apply conj; first [assumption | reflexivity].
Qed.

(** A whole run of the reverse timer from [t] seconds. *)
Lemma countdown_run (t : nat) (s : State) :
  status s = RUNNING -> is_countdown (current_project s) = true ->
  session_time s = Z.of_nat t ->
  (forall k, (k <= t)%nat ->
     session_time (ticks k s) = Z.of_nat t - Z.of_nat k /\
     status (ticks k s) = RUNNING /\
     alarms (ticks k s) = alarms s) /\
  (forall k, (t < k)%nat ->
     session_time (ticks k s) = 0 /\
     status (ticks k s) = PAUSED /\
     alarms (ticks k s) = S (alarms s)).
Proof.
  intros Hst Hcd Ht. split.
  - intros k Hk.
    destruct (countdown_ticks_running k s Hst Hcd) as (E1 & E2 & E3 & _);
      [lia |].
    rewrite E1, Ht. repeat apply conj; [reflexivity | assumption ..].
  - intros k Hk.
    destruct (countdown_ticks_running t s Hst Hcd) as (E1 & E2 & E3 & E4);
      [lia |].
    destruct (countdown_tick_at_zero (ticks t s) E2) as (Z1 & Z2 & Z3);
      [rewrite E4; exact Hcd | lia |].
    replace k with ((k - S t) + S t)%nat by lia.
    rewrite ticks_add, ticks_S.
    destruct (paused_ticks (k - S t) (update_display (ticks t s)) Z2)
      as (P1 & P2 & P3); [lia |].
    rewrite P1, P2, P3, Z1, Z3, E3.
    repeat apply conj; reflexivity.
Qed.

Lemma ticks_nonneg (k : nat) (s : State) :
  0 <= session_time s -> 0 <= session_time (ticks k s).
Proof.
  intros Ht. destruct k as [| k]; [exact Ht |].
  rewrite ticks_S. apply update_display_nonneg.
Qed.

End CountdownFacts.

(** C2, as the code has it.  Selecting the reverse timer, from any state
    whose active project is resolvable, returns with the session time at
    3600 and the status as it was.  If the timer is running, the first
    3600 ticks count down to exactly 0 without an alarm; the alarm is
    raised by the tick after that one, which would go below zero: that
    tick clamps to 0, pauses and raises the alarm, and no later tick
    raises it again.  If the timer is not running, starting it performs
    the first tick at once, so the alarm comes with the 3600th scheduled
    tick after the start.  At no point is the session time negative. *)
Theorem countdown_alarm_on_crossing {N : PyNumber} (s : State)
    (now : string) (Hres : resolvable s = true) :
  exists s0,
    on_project_selected CountDown now s = Ret None s0 /\
    session_time s0 = 3600 /\
    current_project s0 = Some CountDown /\
    status s0 = status s /\
    alarms s0 = alarms s /\
    (forall k, 0 <= session_time (ticks k s0)) /\
    (status s = RUNNING ->
       (forall k, (k <= 3600)%nat ->
          session_time (ticks k s0) = 3600 - Z.of_nat k /\
          status (ticks k s0) = RUNNING /\
          alarms (ticks k s0) = alarms s) /\
       (forall k, (3600 < k)%nat ->
          session_time (ticks k s0) = 0 /\
          status (ticks k s0) = PAUSED /\
          alarms (ticks k s0) = S (alarms s))) /\
    (status s <> RUNNING ->
       (forall k, (k < 3600)%nat ->
          session_time (ticks k (toggle_timer s0)) = 3599 - Z.of_nat k /\
          status (ticks k (toggle_timer s0)) = RUNNING /\
          alarms (ticks k (toggle_timer s0)) = alarms s) /\
       (forall k, (3600 <= k)%nat ->
          session_time (ticks k (toggle_timer s0)) = 0 /\
          status (ticks k (toggle_timer s0)) = PAUSED /\
          alarms (ticks k (toggle_timer s0)) = S (alarms s))).
Proof.
  destruct (save_if_running_resolvable now s Hres)
    as (s1 & Hs & E1 & _ & _ & _ & E5 & _).
  eexists. split.
  { rewrite on_project_selected_unfold, Hs. unfold switch_to.
    rewrite String.eqb_refl. reflexivity. }
  fields.
  set (s0 := set_countdown_view _ _).
  assert (H3600 : Z.of_nat 3600 = 3600) by reflexivity.
  split; [reflexivity |]. split; [reflexivity |].
  split; [exact E1 |]. split; [exact E5 |].
  split; [intros k; apply ticks_nonneg; subst s0; fields; lia |].
  split.
  - intros Hrun.
    destruct (countdown_run 3600 s0) as [Hdown Hafter].
    + subst s0; fields. rewrite E1. exact Hrun.
    + reflexivity.
    + reflexivity.
    + split.
      * intros k Hk. destruct (Hdown k Hk) as (D1 & D2 & D3).
        rewrite D1, D2, D3, H3600. subst s0; fields.
        repeat apply conj; first [reflexivity | exact E5].
      * intros k Hk. destruct (Hafter k Hk) as (D1 & D2 & D3).
        rewrite D1, D2, D3. subst s0; fields.
        repeat apply conj; first [reflexivity | f_equal; exact E5].
  - intros Hnot.
    assert (Htog : toggle_timer s0 = ticks 1 (set_status RUNNING s0)).
    { unfold toggle_timer, resume_timer.
      replace (status s0) with (status s) by (subst s0; fields; congruence).
      destruct (status s); try congruence; reflexivity. }
    destruct (countdown_run 3600 (set_status RUNNING s0)) as [Hdown Hafter];
      try reflexivity.
    rewrite Htog. split.
    + intros k Hk. rewrite <- ticks_add.
      destruct (Hdown (k + 1)%nat ltac:(lia)) as (D1 & D2 & D3).
      rewrite D1, D2, D3, H3600. subst s0; fields.
      repeat apply conj; first [lia | reflexivity | exact E5].
    + intros k Hk. rewrite <- ticks_add.
      destruct (Hafter (k + 1)%nat ltac:(lia)) as (D1 & D2 & D3).
      rewrite D1, D2, D3. subst s0; fields.
      repeat apply conj; first [reflexivity | f_equal; exact E5].
Qed.

Lemma countdown_alarm_on_crossing_witness :
  resolvable working_on_A = true /\
  exists s0,
    on_project_selected CountDown stamp2 working_on_A = Ret None s0 /\
    session_time s0 = 3600 /\
    alarms (ticks 3600 s0) = 0%nat /\
    alarms (ticks 3601 s0) = 1%nat /\
    alarms (ticks 3700 s0) = 1%nat.
Proof.
  assert (Hres : resolvable working_on_A = true) by reflexivity.
  split; [exact Hres |].
  destruct (countdown_alarm_on_crossing working_on_A stamp2 Hres)
    as (s0 & H1 & H2 & _ & _ & _ & _ & Hrun & _).
  destruct (Hrun eq_refl) as [Hdown Hafter].
  exists s0. split; [exact H1 |]. split; [exact H2 |].
  split; [exact (proj2 (proj2 (Hdown 3600%nat (le_n _)))) |].
  split.
  - exact (proj2 (proj2 (Hafter 3601%nat (le_n _)))).
  - refine (proj2 (proj2 (Hafter 3700%nat _))).
    apply Nat.leb_le. reflexivity.
Defined.

(** C2, as stated, fails on the count: start the timer on A, select the
    reverse timer, and let 3600 ticks pass; the session time is 0, as
    claimed, but no alarm has been raised and the timer still runs.  The
    same holds when the 3600 ticks are delivered by the event loop. *)
Lemma countdown_3600_ticks_no_alarm :
  let s0 := run [Toggle; Select CountDown stamp2]
              (__init__ (Content record_AB) true) in
  current_project s0 = Some CountDown /\
  status s0 = RUNNING /\
  session_time s0 = 3600 /\
  session_time (ticks 3600 s0) = 0 /\
  status (ticks 3600 s0) = RUNNING /\
  alarms (ticks 3600 s0) = 0%nat /\
  alarms (ticks 3600 s0) <> 1%nat /\
  alarms (run (repeat Tick 3600) s0) = 0%nat /\
  session_time (run (repeat Tick 3600) s0) = 0.
Proof.
  cbv zeta. repeat apply conj; try (vm_compute; reflexivity).
  vm_compute. discriminate.
Qed.

(* ------------------------------------------------------------------ *)
(** *** The session time over a whole run *)

Section RunFacts.
Context {N : PyNumber}.

(** [save_data] writes the record and the file only. *)
Lemma save_data_keeps_session (now : string) (s : State) :
  let s' := state_of (save_data now s) in
  session_time s' = session_time s /\
  status s' = status s /\
  current_project s' = current_project s /\
  after_queue s' = after_queue s /\
  alarms s' = alarms s.
Proof.
  unfold save_data, write_file.
  destruct (negb (is_countdown (current_project s)));
    [| repeat apply conj; reflexivity].
  destruct (current_project s) as [p |] eqn:Hcp;
    [| cbn; rewrite Hcp; repeat apply conj; reflexivity].
  destruct (dict_get p (projects_data s));
    [| cbn; rewrite Hcp; repeat apply conj; reflexivity].
  cbn. destruct (writable s); cbn; rewrite Hcp;
    repeat apply conj; reflexivity.
Qed.

Lemma save_if_running_keeps_session (now : string) (s : State) :
  let s' := state_of (save_if_running now s) in
  session_time s' = session_time s /\
  status s' = status s /\
  current_project s' = current_project s /\
  after_queue s' = after_queue s /\
  alarms s' = alarms s.
Proof.
  rewrite save_if_running_unfold.
  destruct (_ && _); [apply save_data_keeps_session |].
  repeat apply conj; reflexivity.
Qed.

(** The branches on the selection set the session time to 3600 or to 0,
    or leave it. *)
Lemma switch_to_session_time (selected : string) (s : State) :
  let t := session_time (state_of (switch_to selected s)) in
  t = 3600 \/ t = 0 \/ t = session_time s.
Proof.
  unfold switch_to, bind, modify, gets, ret, get_project_total_time.
  destruct (selected =? CountDown); cbn; [left; reflexivity |].
  destruct (dict_mem selected (projects_data s)); cbn;
    [| right; right; reflexivity].
  destruct (negb (selected =? EmptyString)); cbn;
    [destruct (dict_get selected (projects_data s)); cbn |];
    first [right; left; reflexivity | right; right; reflexivity].
Qed.

Lemma on_project_selected_nonneg (selected now : string) (s : State) :
  0 <= session_time s ->
  0 <= session_time (state_of (on_project_selected selected now s)).
Proof.
  intros Ht. rewrite on_project_selected_unfold.
  destruct (save_if_running_keeps_session now s) as (E & _).
  destruct (save_if_running now s) as [[] s1 | e s1]; cbn in E |- *.
  - destruct (switch_to_session_time selected s1) as [H | [H | H]];
      cbv zeta in H; rewrite H; lia.
  - lia.
Qed.

Lemma add_new_project_keeps_session_time (text now : string) (s : State) :
  session_time (state_of (add_new_project text now s)) = session_time s.
Proof.
  unfold add_new_project, bind, gets.
  destruct (_ && _); [| reflexivity].
  unfold modify at 1.
  set (s1 := set_current_project _ _).
  destruct (save_data_keeps_session now s1) as (E & _ & Ecp & _).
  destruct (save_data now s1) as [[] s2 | e s2]; cbn in E, Ecp |- *.
  - unfold update_project_list. cbn.
    destruct (negb (truthy (current_project s2))); cbn; exact E.
  - exact E.
Qed.

Lemma on_closing_keeps_session_time (now : string) (s : State) :
  session_time (state_of (on_closing now s)) = session_time s.
Proof.
  unfold on_closing, bind, gets, modify, ret.
  destruct (status_eqb (status s) RUNNING).
  - destruct (save_data_keeps_session now (pause_timer s)) as (E & _).
    destruct (save_data now (pause_timer s)); exact E.
  - destruct (save_data_keeps_session now s) as (E & _).
    destruct (save_data now s); exact E.
Qed.

Lemma inc_session_time_nonneg (delta : Z) (s : State) :
  0 <= session_time (inc_session_time delta s).
Proof. unfold inc_session_time. apply update_display_nonneg. Qed.

Lemma handle_nonneg (e : event) (s : State) :
  0 <= session_time s -> 0 <= session_time (handle e s).
Proof.
  intros Ht.
  destruct e as [| delta | sel now | text now | | now]; cbn [handle].
  - unfold toggle_timer, resume_timer, pause_timer.
    destruct (status_eqb (status s) RUNNING);
      [exact Ht | apply update_display_nonneg].
  - apply inc_session_time_nonneg.
  - apply on_project_selected_nonneg. exact Ht.
  - rewrite add_new_project_keeps_session_time. exact Ht.
  - destruct (after_queue s); [exact Ht | apply update_display_nonneg].
  - rewrite on_closing_keeps_session_time. exact Ht.
Qed.

Lemma run_nonneg (evs : list event) (s : State) :
  0 <= session_time s -> 0 <= session_time (run evs s).
Proof.
  revert s. induction evs as [| e rest IH]; intros s Ht; [exact Ht |].
  assert (Hstep : 0 <= session_time (run rest (handle e s)))
    by (apply IH, handle_nonneg, Ht).
  destruct e; try exact Hstep.
  cbn [run]. pose proof (on_closing_keeps_session_time now s) as E.
  destruct (on_closing now s) as [[] s' | x s']; cbn in E.
  - lia.
  - apply IH. lia.
Qed.

Lemma load_data_keeps_session (s : State) :
  session_time (state_of (load_data s)) = session_time s /\
  status (state_of (load_data s)) = status s /\
  after_queue (state_of (load_data s)) = after_queue s.
Proof.
  unfold load_data.
  destruct (data_file s) as [| | d]; try (repeat apply conj; reflexivity).
  unfold try_except, bind, modify, ret, get_most_recent_project,
    get_project_total_time.
  fields.
  destruct d as [| pr d']; [repeat apply conj; reflexivity |].
  destruct (snd (recent_scan (pr :: d'))) as [p |].
  - fields.
    destruct (truthy (Some p)) eqn:Ht; [| repeat apply conj; reflexivity].
    fields. rewrite Ht. cbn [negb].
    destruct (dict_get p (pr :: d')); repeat apply conj; reflexivity.
  - destruct (nth_error (keys (pr :: d')) 1) as [k |];
      [| repeat apply conj; reflexivity].
    fields.
    destruct (truthy (Some k)) eqn:Ht; [| repeat apply conj; reflexivity].
    fields. rewrite Ht. cbn [negb].
    destruct (dict_get k (pr :: d')); repeat apply conj; reflexivity.
Qed.

Lemma init_fields (f : file) (w : bool) :
  session_time (__init__ f w) = 0 /\
  status (__init__ f w) = STOPPED /\
  after_queue (__init__ f w) = O.
Proof.
  unfold __init__, update_project_list.
  set (s0 := mkState _ _ _ _ _ _ _ _ _ _ _ _).
  destruct (load_data_keeps_session s0) as (E1 & E2 & E3).
  cbv zeta. fields.
  destruct (negb (truthy (current_project (state_of (load_data s0)))));
    fields; rewrite E1, E2, E3; repeat apply conj; reflexivity.
Qed.

End RunFacts.

(** C10: a session starts at 0 seconds, and after any sequence of events
    delivered to the timer (buttons, adjustments, selections, creations,
    ticks, close), whether their handlers return or raise, the session
    time is not negative; each handler keeps it so, and a tick or an
    adjustment (and a start, which ticks at once) ends at a non-negative
    time from any state at all, the decrement below zero or the negative
    sum being clamped before the handler returns; a pause does not touch
    the session time. *)
Theorem session_time_never_negative {N : PyNumber} (f : file) (w : bool)
    (evs : list event) :
  session_time (__init__ f w) = 0 /\
  0 <= session_time (run evs (__init__ f w)) /\
  (forall e s, 0 <= session_time s -> 0 <= session_time (handle e s)) /\
  (forall s, 0 <= session_time (update_display s)) /\
  (forall delta s, 0 <= session_time (inc_session_time delta s)) /\
  (forall s, 0 <= session_time (resume_timer s)) /\
  (forall s, session_time (pause_timer s) = session_time s).
Proof.
  destruct (init_fields f w) as (E & _).
  split; [exact E |].
  split; [apply run_nonneg; rewrite E; lia |].
  split; [exact handle_nonneg |].
  split; [exact update_display_nonneg |].
  split; [exact inc_session_time_nonneg |].
  split; [intros s; apply update_display_nonneg | reflexivity].
Qed.

Lemma session_time_never_negative_witness :
  0 <= session_time
         (run [Select CountDown stamp2; Toggle; Adjust (-7200); Tick;
               Select "A" stamp2; Close stamp2]
            (__init__ (Content record_AB) true)).
Proof.
  exact (proj1 (proj2 (session_time_never_negative (Content record_AB) true
                         [Select CountDown stamp2; Toggle; Adjust (-7200);
                          Tick; Select "A" stamp2; Close stamp2]))).
Defined.


(* ------------------------------------------------------------------ *)
(** *** What holds in every run of the program *)

Section Reachable.
Context {N : PyNumber}.

(** A property kept by every handler holds along every run. *)
Lemma run_invariant (P : State -> Prop) :
  (forall e s, P s -> P (handle e s)) ->
  forall evs s, P s -> P (run evs s).
Proof.
  intros Hstep evs. induction evs as [| e rest IH]; intros s Hs; [exact Hs |].
  pose proof (Hstep e s Hs) as Hn.
  destruct e; try (apply IH; exact Hn).
  cbn [run]. cbn [handle] in Hn.
  destruct (on_closing now s) as [[] s' | x s']; cbn [state_of] in Hn;
    [exact Hn | apply IH; exact Hn].
Qed.

Lemma keys_in_dict_mem {V : Type} (k : string) (d : list (string * V)) :
  In k (keys d) -> dict_mem k d = true.
Proof.
  unfold dict_mem, keys.
  induction d as [| [k' v] r IH]; cbn; [contradiction |].
  intros [-> | H].
  - rewrite String.eqb_refl. reflexivity.
  - destruct (k' =? k); [reflexivity | apply IH, H].
Qed.

Lemma recent_step_project (name : string)
    (acc : option string * option string) (date : string) :
  snd (recent_step name acc date) = snd acc \/
  snd (recent_step name acc date) = Some name.
Proof. unfold recent_step. destruct (_ || _); [right | left]; reflexivity. Qed.

Lemma recent_dates_project (name : string) (dates : list string)
    (acc : option string * option string) :
  snd (fold_left (recent_step name) dates acc) = snd acc \/
  snd (fold_left (recent_step name) dates acc) = Some name.
Proof.
  revert acc. induction dates as [| d r IH]; intros acc; cbn;
    [left; reflexivity |].
  destruct (IH (recent_step name acc d)) as [H | H].
  - rewrite H. apply recent_step_project.
  - right. exact H.
Qed.

(** The project that the scan settles on is a project of the record. *)
Lemma recent_scan_project (d : pdata) (p : string) :
  snd (recent_scan d) = Some p -> In p (keys d).
Proof.
  unfold recent_scan.
  match goal with
  | |- snd (fold_left ?F d ?a) = _ -> _ =>
      set (F0 := F);
      assert (G : forall acc, snd (fold_left F0 d acc) = Some p ->
                              snd acc = Some p \/ In p (keys d))
  end.
  { induction d as [| pr r IH]; intros acc; cbn [fold_left];
      [left; assumption |].
    intros H. destruct (IH _ H) as [H1 | H1].
    - destruct (recent_dates_project (fst pr) (keys (snd pr)) acc) as [E | E].
      + left. exact (eq_trans (eq_sym E) H1).
      + right. left.
        assert (E' : Some (fst pr) = Some p) by exact (eq_trans (eq_sym E) H1).
        injection E' as E'. exact E'.
    - right. right. exact H1. }
  intros H. destruct (G _ H) as [H1 | H1]; [discriminate | exact H1].
Qed.

(** [get_most_recent_project] reads the state only, and a name it returns
    is a key of the record. *)
Lemma get_most_recent_project_returns (s : State) :
  match get_most_recent_project s with
  | Ret None s' => s' = s
  | Ret (Some p) s' => s' = s /\ dict_mem p (projects_data s) = true
  | Raise _ s' => s' = s
  end.
Proof.
  unfold get_most_recent_project.
  destruct (projects_data s) as [| pr d'] eqn:Hd; [reflexivity |].
  destruct (snd (recent_scan (pr :: d'))) as [p |] eqn:Hscan.
  - split; [reflexivity |].
    apply keys_in_dict_mem, recent_scan_project, Hscan.
  - destruct (nth_error (keys (pr :: d')) 1) as [k |] eqn:Hn;
      [| reflexivity].
    split; [reflexivity |].
    apply keys_in_dict_mem. eapply nth_error_In. exact Hn.
Qed.

(** After [load_data] the active project is unset or a key of the record. *)
Lemma load_data_current (s : State) :
  match current_project (state_of (load_data s)) with
  | None => True
  | Some p => dict_mem p (projects_data (state_of (load_data s))) = true
  end.
Proof.
  unfold load_data.
  destruct (data_file s) as [| | d]; try exact I.
  unfold try_except, bind, modify, ret.
  pose proof (get_most_recent_project_returns (set_projects_data d s)) as H.
  destruct (get_most_recent_project (set_projects_data d s))
    as [[p |] s2 | e s2].
  - destruct H as [-> Hmem]. fields.
    destruct (truthy (Some p)) eqn:Ht.
    + unfold get_project_total_time. fields. rewrite Ht. cbn [negb].
      destruct (dict_mem_get _ _ Hmem) as [log Hlog]. rewrite Hlog.
      exact Hmem.
    + exact Hmem.
  - subst s2. exact I.
  - exact I.
Qed.

Lemma init_active (f : file) (w : bool) : active (__init__ f w) = true.
Proof.
  unfold __init__, update_project_list, active.
  set (s0 := mkState _ _ _ _ _ _ _ _ _ _ _ _).
  pose proof (load_data_current s0) as H.
  cbv zeta. fields.
  destruct (current_project (state_of (load_data s0))) as [p |] eqn:Hcp;
    cbn [truthy negb].
  - destruct (p =? EmptyString) eqn:He; cbn [negb]; fields.
    + reflexivity.
    + rewrite Hcp, H. apply orb_true_r.
  - fields. reflexivity.
Qed.

Lemma active_resolvable (s : State) : active s = true -> resolvable s = true.
Proof.
  unfold active, resolvable. destruct (current_project s) as [p |];
    [| discriminate].
  intros H. rewrite <- orb_assoc, H. apply orb_true_r.
Qed.

Lemma active_same (s s' : State) :
  current_project s' = current_project s ->
  keys (projects_data s') = keys (projects_data s) ->
  active s' = active s.
Proof.
  intros Ecp Ek. unfold active. rewrite Ecp.
  destruct (current_project s) as [p |]; [| reflexivity].
  rewrite (dict_mem_keys p _ _ Ek). reflexivity.
Qed.

Lemma update_display_active (s : State) :
  active (update_display s) = active s.
Proof.
  destruct (update_display_fields s) as (_ & _ & _ & _ & Ecp & _ & Epd & _).
  apply active_same; [exact Ecp | rewrite Epd; reflexivity].
Qed.

(** In an active state [save_data] returns. *)
Lemma save_data_active (now : string) (s : State) :
  active s = true ->
  exists s1,
    save_data now s = Ret tt s1 /\
    active s1 = true /\
    status s1 = status s /\
    after_queue s1 = after_queue s.
Proof.
  intros Ha. pose proof Ha as Ha'. unfold active in Ha'.
  destruct (current_project s) as [p |] eqn:Hcp; [| discriminate].
  destruct (String.eqb_spec p CountDown) as [Hcd | Hcd].
  - exists s. rewrite save_data_countdown
      by (rewrite Hcp; cbn; rewrite Hcd; reflexivity).
    repeat apply conj; first [reflexivity | exact Ha].
  - cbn in Ha'. destruct (dict_mem_get p _ Ha') as [log Hlog].
    destruct (save_data_project now p log s Hcp Hcd Hlog)
      as (s1 & Hs & (_ & _ & Hk & _) & Est & _ & Ecp & _ & _ & Eaq & _).
    exists s1. split; [exact Hs |].
    rewrite (active_same s s1 Ecp Hk).
    repeat apply conj; assumption.
Qed.

(** The branches on the selection return, on a resolvable project. *)
Lemma switch_to_active (selected : string) (s : State) :
  active s = true ->
  exists r s', switch_to selected s = Ret r s' /\ active s' = true.
Proof.
  intros Ha. unfold switch_to, bind, modify, gets, ret.
  destruct (selected =? CountDown) eqn:Hcd.
  - eexists. eexists. split; [reflexivity |]. reflexivity.
  - destruct (dict_mem selected (projects_data s)) eqn:Hm.
    + unfold get_project_total_time. fields.
      destruct (dict_mem_get _ _ Hm) as [log Hlog]. rewrite Hlog.
      destruct (negb (truthy (Some selected)));
        (eexists; eexists; split; [reflexivity |]);
        unfold active; fields; rewrite Hm; apply orb_true_r.
    + eexists. eexists. split; [reflexivity | exact Ha].
Qed.

Lemma on_project_selected_active (selected now : string) (s : State) :
  active s = true ->
  exists r s',
    on_project_selected selected now s = Ret r s' /\ active s' = true.
Proof.
  intros Ha.
  destruct (save_if_running_resolvable now s (active_resolvable s Ha))
    as (s1 & Hs & _ & _ & Ecp & _ & _ & _ & Hk & _).
  rewrite on_project_selected_unfold, Hs.
  apply switch_to_active. rewrite (active_same s s1 Ecp Hk). exact Ha.
Qed.

Lemma add_new_project_active (text now : string) (s : State) :
  active s = true ->
  exists s',
    add_new_project text now s = Ret tt s' /\
    active s' = true /\
    status s' = status s /\
    after_queue s' = after_queue s.
Proof.
  intros Ha.
  destruct (String.eqb_spec (strip text) EmptyString) as [He | He].
  - exists s. rewrite add_new_project_rejected by (left; exact He).
    repeat apply conj; first [reflexivity | exact Ha].
  - destruct (dict_mem (strip text) (projects_data s)) eqn:Hm.
    + exists s. rewrite add_new_project_rejected by (right; exact Hm).
      repeat apply conj; first [reflexivity | exact Ha].
    + destruct (add_new_project_created text now s He Hm)
        as (s' & H1 & H2 & H3 & _ & _ & _ & _ & _ & _ & H10 & H11).
      exists s'. split; [exact H1 |].
      unfold active. rewrite H2, H3.
      repeat apply conj; first [assumption | apply orb_true_r].
Qed.

Lemma on_closing_active (now : string) (s : State) :
  active s = true ->
  exists s',
    on_closing now s = Ret tt s' /\
    active s' = true /\
    (status s' = status s \/ status s' = PAUSED) /\
    after_queue s' = after_queue s.
Proof.
  intros Ha. unfold on_closing, bind, gets, modify, ret.
  destruct (status_eqb (status s) RUNNING).
  - destruct (save_data_active now (pause_timer s) Ha)
      as (s' & Hs & Ha' & Est & Eaq).
    exists s'. rewrite Hs.
    repeat apply conj; first [reflexivity | assumption | right; exact Est].
  - destruct (save_data_active now s Ha) as (s' & Hs & Ha' & Est & Eaq).
    exists s'. rewrite Hs.
    repeat apply conj; first [reflexivity | assumption | left; exact Est].
Qed.

Lemma inc_session_time_active (delta : Z) (s : State) :
  active (inc_session_time delta s) = active s.
Proof.
  unfold inc_session_time. rewrite update_display_active.
  apply active_same;
    destruct (negb (status_eqb (status s) PAUSED)), (delta =? 0)%Z;
    fields; try reflexivity;
    match goal with
    | |- context [(?x <? 0)%Z] => destruct (x <? 0)%Z; reflexivity
    end.
Qed.

Lemma handle_active (e : event) (s : State) :
  active s = true -> active (handle e s) = true.
Proof.
  intros Ha. destruct e as [| delta | sel now | text now | | now];
    cbn [handle].
  - unfold toggle_timer, resume_timer, pause_timer.
    destruct (status_eqb (status s) RUNNING);
      [exact Ha | rewrite update_display_active; exact Ha].
  - rewrite inc_session_time_active. exact Ha.
  - destruct (on_project_selected_active sel now s Ha) as (r & s' & -> & H).
    exact H.
  - destruct (add_new_project_active text now s Ha) as (s' & -> & H & _).
    exact H.
  - destruct (after_queue s); [exact Ha |].
    rewrite update_display_active. exact Ha.
  - destruct (on_closing_active now s Ha) as (s' & -> & H & _). exact H.
Qed.

(** In every run the active project is the reverse timer or a project of
    the record. *)
Lemma run_active (f : file) (w : bool) (evs : list event) :
  active (run evs (__init__ f w)) = true.
Proof.
  apply (run_invariant (fun s => active s = true) handle_active).
  apply init_active.
Qed.


Lemma update_display_not_stopped (s : State) :
  status s <> STOPPED -> status (update_display s) <> STOPPED.
Proof.
  intros H. destruct (update_display_fields s) as (_ & E & _).
  rewrite E. destruct (_ <? 0)%Z; [discriminate | exact H].
Qed.

Lemma handle_idle (e : event) (s : State) :
  active s = true -> idle_when_stopped s -> idle_when_stopped (handle e s).
Proof.
  unfold idle_when_stopped. intros Ha Hi.
  destruct e as [| delta | sel now | text now | | now]; cbn [handle].
  - intros Hst. exfalso. revert Hst.
    unfold toggle_timer, resume_timer, pause_timer.
    destruct (status_eqb (status s) RUNNING); [discriminate |].
    apply update_display_not_stopped. discriminate.
  - intros Hst. exfalso. revert Hst.
    unfold inc_session_time. apply update_display_not_stopped.
    destruct (negb (status_eqb (status s) PAUSED)) eqn:Hp;
      destruct (delta =? 0)%Z; fields;
      try match goal with
        | |- context [(?x <? 0)%Z] => destruct (x <? 0)%Z
        end; fields; try discriminate;
      destruct (status s); discriminate.
  - rewrite on_project_selected_unfold.
    destruct (save_if_running_keeps_session now s) as (_ & E1 & _ & E2 & _).
    destruct (save_if_running now s) as [[] s1 | x s1]; cbn [state_of] in *.
    + destruct (switch_to_keeps_record sel s1) as (_ & _ & _ & F1 & _ & F2).
      rewrite F1, F2, E1, E2. exact Hi.
    + rewrite E1, E2. exact Hi.
  - destruct (add_new_project_active text now s Ha) as (s' & -> & _ & E1 & E2).
    cbn [state_of]. rewrite E1, E2. exact Hi.
  - destruct (after_queue s) as [| k] eqn:Hq; [intros _; exact Hq |].
    intros Hst. exfalso. revert Hst. apply update_display_not_stopped.
    fields. intros Hst. specialize (Hi Hst). discriminate.
  - destruct (on_closing_active now s Ha) as (s' & -> & _ & [E1 | E1] & E2).
    + cbn [state_of]. rewrite E1, E2. exact Hi.
    + cbn [state_of]. rewrite E1. discriminate.
Qed.

Lemma run_idle (f : file) (w : bool) (evs : list event) :
  idle_when_stopped (run evs (__init__ f w)).
Proof.
  refine (proj2 (run_invariant
                   (fun s => active s = true /\ idle_when_stopped s) _ evs
                   (__init__ f w) _)).
  - intros e s [Ha Hi]. split; [apply handle_active, Ha |].
    apply handle_idle; assumption.
  - split; [apply init_active |].
    intros _. apply (init_fields f w).
Qed.

(** In every run, a scheduled tick finds the timer running or paused:
    while the status is [STOPPED] nothing is scheduled, and the tick event
    changes nothing. *)
Lemma scheduled_tick_not_stopped (f : file) (w : bool) (evs : list event) :
  let s := run evs (__init__ f w) in
  status s = STOPPED -> after_queue s = O /\ handle Tick s = s.
Proof.
  cbv zeta. intros Hst. pose proof (run_idle f w evs Hst) as Hq.
  split; [exact Hq |]. cbn [handle]. rewrite Hq. reflexivity.
Qed.

(** So, in every run, the tick event leaves the session time alone unless
    the timer is running. *)
Lemma tick_event_needs_running (f : file) (w : bool) (evs : list event) :
  let s := run evs (__init__ f w) in
  status s <> RUNNING -> session_time (handle Tick s) = session_time s.
Proof.
  cbv zeta. intros Hst.
  destruct (status (run evs (__init__ f w))) eqn:E.
  - destruct (scheduled_tick_not_stopped f w evs E) as [_ H].
    rewrite H. reflexivity.
  - cbn [handle]. destruct (after_queue _) as [| k]; [reflexivity |].
    refine (proj1 (update_display_paused _ _ _)); fields.
    + exact E.
    + apply run_nonneg. rewrite (proj1 (init_fields f w)). lia.
  - congruence.
Qed.

End Reachable.


(* ------------------------------------------------------------------ *)
(** *** The texts of helpers.py *)

Section FormatFacts.

Lemma uint_digits (d : Decimal.uint) :
  all_digits (DecimalString.NilEmpty.string_of_uint d) = true.
Proof. induction d; cbn; first [reflexivity | assumption]. Qed.

Lemma uint_nonempty (d : Decimal.uint) :
  d <> Decimal.Nil ->
  exists c r, DecimalString.NilEmpty.string_of_uint d = String c r.
Proof. destruct d; [congruence | ..]; intros _; cbn; eauto. Qed.

Lemma digit_not_colon (c : ascii) :
  is_digit c = true -> (c =? ":")%char = false.
Proof.
  intros H. destruct (Ascii.eqb_spec c ":"%char) as [-> | _];
    [discriminate | reflexivity].
Qed.

Lemma digit_not_minus (c : ascii) :
  is_digit c = true -> (c =? "-")%char = false.
Proof.
  intros H. destruct (Ascii.eqb_spec c "-"%char) as [-> | _];
    [discriminate | reflexivity].
Qed.

Lemma digits_no_colon (t : string) : all_digits t = true -> no_colon t = true.
Proof.
  induction t as [| c r IH]; cbn; [reflexivity |].
  intros H. apply andb_prop in H. destruct H as [Hc Hr].
  rewrite (digit_not_colon c Hc), (IH Hr). reflexivity.
Qed.

(** The numeral of a non-negative integer is a non-empty run of digits. *)
Lemma str_int_nonneg (z : Z) :
  0 <= z ->
  exists c r, str_int z = String c r /\ all_digits (String c r) = true.
Proof.
  intros Hz. unfold str_int. destruct z as [| p | p]; [| | lia].
  - exists "0"%char, EmptyString. split; reflexivity.
  - cbn [Z.to_int DecimalString.NilZero.string_of_int].
    pose proof (DecimalPos.Unsigned.to_uint_nonnil p) as Hn.
    pose proof (uint_digits (Pos.to_uint p)) as Hd.
    destruct (uint_nonempty _ Hn) as (c & r & E).
    exists c, r. unfold DecimalString.NilZero.string_of_uint.
    destruct (Pos.to_uint p); [congruence | ..]; rewrite <- E; split;
      first [reflexivity | exact Hd].
Qed.

Lemma str_int_neg (p : positive) :
  str_int (Z.neg p) = String "-" (str_int (Z.pos p)).
Proof. reflexivity. Qed.

Lemma read_int_str_int (z : Z) : read_int (str_int z) = Some z.
Proof.
  unfold read_int, str_int.
  rewrite DecimalString.NilZero.isi.
  - cbn [option_map]. rewrite DecimalZ.of_to. reflexivity.
  - destruct z; cbn; try discriminate.
    intros H. injection H as H.
    exact (DecimalPos.Unsigned.to_uint_nonnil _ H).
  - destruct z; cbn; try discriminate.
    intros H. injection H as H.
    exact (DecimalPos.Unsigned.to_uint_nonnil _ H).
Qed.

(** A zero in front of a digit does not change the number read. *)
Lemma read_int_zero_prefix (c : ascii) (r : string) (z : Z) :
  is_digit c = true ->
  read_int (String c r) = Some z ->
  read_int (String "0" (String c r)) = Some z.
Proof.
  intros Hc. unfold read_int, DecimalString.NilZero.int_of_string.
  rewrite (digit_not_minus c Hc).
  change (("0" =? "-")%char) with false. cbv iota.
  unfold DecimalString.NilZero.uint_of_string.
  change (DecimalString.NilEmpty.uint_of_string (String "0" (String c r)))
    with (DecimalString.uint_of_char "0"
            (DecimalString.NilEmpty.uint_of_string (String c r))).
  destruct (DecimalString.NilEmpty.uint_of_string (String c r)) as [d |];
    [| discriminate].
  cbn. intros H. exact H.
Qed.

(** [format(z, "02d")] is the numeral of [z], with one zero in front when
    [z] has a single digit. *)
Lemma format_02d_cases (z : Z) :
  format_02d z = str_int z \/
  exists c, is_digit c = true /\ str_int z = String c EmptyString /\
            format_02d z = String "0" (String c EmptyString).
Proof.
  unfold format_02d. destruct (Z.ltb_spec z 0) as [Hneg | Hpos].
  - left. destruct z as [| p | p]; try lia.
    rewrite str_int_neg. cbn [Z.abs].
    destruct (str_int_nonneg (Z.pos p)) as (c & r & E & _); [lia |].
    rewrite E. reflexivity.
  - rewrite Z.abs_eq by exact Hpos.
    destruct (str_int_nonneg z Hpos) as (c & r & E & Hd).
    rewrite E. destruct r as [| c' r'].
    + right. exists c. cbn in Hd. rewrite andb_true_r in Hd.
      split; [exact Hd | split; reflexivity].
    + left. reflexivity.
Qed.

Lemma read_int_format_02d (z : Z) : read_int (format_02d z) = Some z.
Proof.
  destruct (format_02d_cases z) as [E | (c & Hc & Es & E)]; rewrite E.
  - apply read_int_str_int.
  - apply read_int_zero_prefix; [exact Hc |].
    rewrite <- Es. apply read_int_str_int.
Qed.

Lemma str_int_no_colon (z : Z) : no_colon (str_int z) = true.
Proof.
  destruct z as [| p | p].
  - reflexivity.
  - destruct (str_int_nonneg (Z.pos p)) as (c & r & E & Hd); [lia |].
    rewrite E. apply digits_no_colon, Hd.
  - rewrite str_int_neg.
    destruct (str_int_nonneg (Z.pos p)) as (c & r & E & Hd); [lia |].
    rewrite E. pose proof (digits_no_colon _ Hd) as H.
    cbn [no_colon] in H |- *. rewrite H. reflexivity.
Qed.

Lemma format_02d_no_colon (z : Z) : no_colon (format_02d z) = true.
Proof.
  destruct (format_02d_cases z) as [E | (c & Hc & _ & E)]; rewrite E.
  - apply str_int_no_colon.
  - cbn. rewrite (digit_not_colon c Hc). reflexivity.
Qed.

Lemma split_colon_whole (t : string) :
  no_colon t = true -> split_colon t = [t].
Proof.
  induction t as [| c r IH]; cbn; [reflexivity |].
  intros H. apply andb_prop in H. destruct H as [Hc Hr].
  apply negb_true_iff in Hc. rewrite Hc, (IH Hr). reflexivity.
Qed.

Lemma split_colon_first (a r : string) :
  no_colon a = true ->
  split_colon (a ++ String ":" r) = a :: split_colon r.
Proof.
  induction a as [| c a' IH]; cbn; [reflexivity |].
  intros H. apply andb_prop in H. destruct H as [Hc Ha].
  apply negb_true_iff in Hc. rewrite Hc, (IH Ha). reflexivity.
Qed.

Lemma clock_fields (s : Z) :
  s / 3600 * 3600 + (s mod 3600) / 60 * 60 + s mod 60 = s /\
  s / 3600 * 60 + (s mod 3600) / 60 = s / 60.
Proof.
  pose proof (Z.div_mod s 3600 ltac:(lia)).
  pose proof (Z.mod_pos_bound s 3600 ltac:(lia)).
  pose proof (Z.div_mod (s mod 3600) 60 ltac:(lia)).
  pose proof (Z.mod_pos_bound (s mod 3600) 60 ltac:(lia)).
  pose proof (Z.div_mod s 60 ltac:(lia)).
  pose proof (Z.mod_pos_bound s 60 ltac:(lia)).
  lia.
Qed.

End FormatFacts.

(** X1: what [format_time] prints can be read back: the three fields
    between the colons are numerals, and hours * 3600 + minutes * 60 +
    seconds is the integer that was formatted, negative ones included; so
    two different integers never print the same text. *)
Theorem format_time_reads_back (s : Z) :
  read_clock (Helpers.format_time s) = Some s /\
  forall s', Helpers.format_time s = Helpers.format_time s' -> s = s'.
Proof.
  assert (Hread : forall x, read_clock (Helpers.format_time x) = Some x).
  { intros x. unfold read_clock, Helpers.format_time. cbv zeta.
    change (format_02d (x / 3600) ++ ":" ++
            format_02d (x mod 3600 / 60) ++ ":" ++ format_02d (x mod 60))
      with (format_02d (x / 3600) ++
            String ":" (format_02d (x mod 3600 / 60) ++
                        String ":" (format_02d (x mod 60)))).
    rewrite !split_colon_first by apply format_02d_no_colon.
    rewrite split_colon_whole by apply format_02d_no_colon.
    rewrite !read_int_format_02d.
    f_equal. apply clock_fields. }
  split; [apply Hread |].
  intros s' E. pose proof (Hread s) as H1. rewrite E, Hread in H1.
  congruence.
Qed.

(** X2: [format_time_hm] keeps the minute and drops the seconds: reading
    its text back as hours * 60 + minutes gives the integer divided by 60,
    rounded down; so two integers print the same text exactly when they
    fall in the same minute. *)
Theorem format_time_hm_reads_back (s : Z) :
  read_hm (Helpers.format_time_hm s) = Some (s / 60) /\
  forall s',
    Helpers.format_time_hm s = Helpers.format_time_hm s' <-> s / 60 = s' / 60.
Proof.
  assert (Hread : forall x, read_hm (Helpers.format_time_hm x) = Some (x / 60)).
  { intros x. unfold read_hm, Helpers.format_time_hm. cbv zeta.
    change (str_int (x / 3600) ++ ":" ++ format_02d (x mod 3600 / 60))
      with (str_int (x / 3600) ++
            String ":" (format_02d (x mod 3600 / 60))).
    rewrite split_colon_first by apply str_int_no_colon.
    rewrite split_colon_whole by apply format_02d_no_colon.
    rewrite read_int_str_int, read_int_format_02d.
    f_equal. apply clock_fields. }
  split; [apply Hread |].
  intros s'. split.
  - intros E. pose proof (Hread s) as H1. rewrite E, Hread in H1. congruence.
  - intros E. unfold Helpers.format_time_hm. cbv zeta.
    assert (Hh : s / 3600 = s' / 3600).
    { replace (s / 3600) with (s / 60 / 60)
        by (rewrite Z.div_div by lia; reflexivity).
      replace (s' / 3600) with (s' / 60 / 60)
        by (rewrite Z.div_div by lia; reflexivity).
      rewrite E. reflexivity. }
    assert (Hm : s mod 3600 / 60 = s' mod 3600 / 60).
    { pose proof (proj2 (clock_fields s)). pose proof (proj2 (clock_fields s')).
      lia. }
    rewrite Hh, Hm. reflexivity.
Qed.


Section WidthFacts.

Lemma length_append (a b : string) :
  String.length (a ++ b) = (String.length a + String.length b)%nat.
Proof. induction a as [| c a' IH]; cbn; [reflexivity | rewrite IH; reflexivity]. Qed.

Lemma format_02d_width (z : Z) :
  0 <= z < 100 -> String.length (format_02d z) = 2%nat.
Proof.
  intros Hz. replace z with (Z.of_nat (Z.to_nat z)) by lia.
  assert (Hn : (Z.to_nat z < 100)%nat) by lia.
  revert Hn. generalize (Z.to_nat z). intros n.
  do 100 (destruct n as [| n]; [reflexivity |]). lia.
Qed.

End WidthFacts.

(** X3: below a hundred hours [format_time] prints exactly eight
    characters, two per field and two colons. *)
Theorem format_time_width (s : Z) (Hs : 0 <= s < 360000) :
  String.length (Helpers.format_time s) = 8%nat.
Proof.
  unfold Helpers.format_time. cbv zeta.
  rewrite !length_append.
  pose proof (Z.mod_pos_bound s 60 ltac:(lia)) as H60.
  pose proof (Z.mod_pos_bound s 3600 ltac:(lia)) as H3600.
  assert (Hm : 0 <= s mod 3600 / 60 < 100)
    by (split; [apply Z.div_pos; lia | apply Z.div_lt_upper_bound; lia]).
  assert (Hh : 0 <= s / 3600 < 100)
    by (split; [apply Z.div_pos; lia | apply Z.div_lt_upper_bound; lia]).
  rewrite !format_02d_width by lia. reflexivity.
Qed.

Lemma format_time_width_witness :
  0 <= 359999 < 360000 /\
  String.length (Helpers.format_time 359999) = 8%nat.
Proof.
  assert (H : 0 <= 359999 < 360000) by lia.
  split; [exact H | exact (format_time_width 359999 H)].
Defined.

(* ------------------------------------------------------------------ *)
(** *** What the timer button shows *)

Section DisplayFacts.
Context {N : PyNumber}.

(** [save_data] touches the record and the file, nothing else. *)
Lemma save_data_frame (now : string) (s : State) :
  exists pd df,
    state_of (save_data now s) = set_data_file df (set_projects_data pd s).
Proof.
  exists (projects_data (state_of (save_data now s))),
         (data_file (state_of (save_data now s))).
  unfold save_data, write_file.
  destruct s as [st t cp cph pd rb tl cv aq al df w]; fields.
  destruct (negb (is_countdown cp)); [| reflexivity].
  destruct cp as [p |]; [| reflexivity].
  destruct (dict_get p pd); [| reflexivity].
  cbn [state_of]. destruct w; reflexivity.
Qed.

Lemma save_if_running_frame (now : string) (s : State) :
  exists pd df,
    state_of (save_if_running now s) =
      set_data_file df (set_projects_data pd s).
Proof.
  rewrite save_if_running_unfold.
  destruct (_ && _); [apply save_data_frame |].
  exists (projects_data s), (data_file s). destruct s; reflexivity.
Qed.

Lemma update_display_shows_time (s : State) :
  run_btn (update_display s) =
  Helpers.convert_seconds_to_hms (session_time (update_display s)).
Proof.
  destruct s as [st t cp cph pd rb tl cv aq al df w].
  unfold update_display, alarm, pause_timer. fields.
  destruct st, (is_countdown cp); cbn [negb status_eqb]; fields;
    try match goal with
      | |- context [(?x <? 0)%Z] => destruct (x <? 0)%Z
      end; reflexivity.
Qed.

Lemma switch_to_shows_time (selected : string) (s : State) :
  run_btn s = Helpers.convert_seconds_to_hms (session_time s) ->
  run_btn (state_of (switch_to selected s)) =
  Helpers.convert_seconds_to_hms (session_time (state_of (switch_to selected s))).
Proof.
  intros H. unfold switch_to, bind, modify, gets, ret, get_project_total_time.
  destruct (selected =? CountDown); [reflexivity |].
  destruct (dict_mem selected (projects_data s)); [| exact H].
  fields. destruct (negb (truthy (Some selected)));
    [reflexivity |].
  destruct (dict_get selected (projects_data s)); [reflexivity | exact H].
Qed.

Lemma handle_shows_time (e : event) (s : State) :
  run_btn s = Helpers.convert_seconds_to_hms (session_time s) ->
  run_btn (handle e s) =
  Helpers.convert_seconds_to_hms (session_time (handle e s)).
Proof.
  intros H. destruct e as [| delta | sel now | text now | | now];
    cbn [handle].
  - unfold toggle_timer, resume_timer, pause_timer.
    destruct (status_eqb (status s) RUNNING);
      [exact H | apply update_display_shows_time].
  - unfold inc_session_time. apply update_display_shows_time.
  - rewrite on_project_selected_unfold.
    destruct (save_if_running_frame now s) as (pd & df & E).
    destruct (save_if_running now s) as [[] s1 | x s1]; cbn [state_of] in E;
      subst s1.
    + apply switch_to_shows_time. exact H.
    + exact H.
  - rewrite add_new_project_keeps_session_time.
    unfold add_new_project, bind, gets.
    destruct (_ && _); [| exact H].
    unfold modify at 1.
    set (s1 := set_current_project _ _).
    destruct (save_data_frame now s1) as (pd & df & E).
    destruct (save_data now s1) as [[] s2 | x s2]; cbn [state_of] in E |- *;
      subst s2.
    + unfold modify, ret, update_project_list. cbn [state_of].
      destruct (negb (truthy _)); exact H.
    + exact H.
  - destruct (after_queue s); [exact H | apply update_display_shows_time].
  - rewrite on_closing_keeps_session_time.
    unfold on_closing, bind, gets, modify, ret.
    destruct (status_eqb (status s) RUNNING).
    + destruct (save_data_frame now (pause_timer s)) as (pd & df & E).
      destruct (save_data now (pause_timer s)); cbn [state_of] in E |- *;
        rewrite E; exact H.
    + destruct (save_data_frame now s) as (pd & df & E).
      destruct (save_data now s); cbn [state_of] in E |- *;
        rewrite E; exact H.
Qed.

Lemma load_data_keeps_button (s : State) :
  run_btn (state_of (load_data s)) = run_btn s.
Proof.
  unfold load_data.
  destruct (data_file s) as [| | d]; try reflexivity.
  unfold try_except, bind, modify, ret, get_most_recent_project,
    get_project_total_time.
  fields.
  destruct d as [| pr d']; [reflexivity |].
  destruct (snd (recent_scan (pr :: d'))) as [p |].
  - fields.
    destruct (truthy (Some p)) eqn:Ht; [| reflexivity].
    fields. rewrite Ht. cbn [negb].
    destruct (dict_get p (pr :: d')); reflexivity.
  - destruct (nth_error (keys (pr :: d')) 1) as [k |]; [| reflexivity].
    fields.
    destruct (truthy (Some k)) eqn:Ht; [| reflexivity].
    fields. rewrite Ht. cbn [negb].
    destruct (dict_get k (pr :: d')); reflexivity.
Qed.

End DisplayFacts.

(** X4: in every run the timer button shows the session time: the
    fields it renders are those of [convert_seconds_to_hms] at the
    current [session_time], after a tick as after a selection, whose two
    literal texts are the renderings of 3600 and of 0 seconds. *)
Theorem button_shows_session_time {N : PyNumber} (f : file) (w : bool)
    (evs : list event) :
  run_btn (run evs (__init__ f w)) =
    Helpers.convert_seconds_to_hms (session_time (run evs (__init__ f w))) /\
  button_text (Helpers.convert_seconds_to_hms 3600) = "01h 00m 00" /\
  button_text (Helpers.convert_seconds_to_hms 0) = "00h 00m 00".
Proof.
  split; [| split; reflexivity].
  apply (run_invariant
           (fun s => run_btn s =
                     Helpers.convert_seconds_to_hms (session_time s))
           handle_shows_time).
  unfold __init__, update_project_list.
  set (s0 := mkState _ _ _ _ _ _ _ _ _ _ _ _).
  destruct (load_data_keeps_session s0) as (E1 & _).
  cbv zeta. fields.
  pose proof (load_data_keeps_button s0) as Hb.
  destruct (negb (truthy (current_project (state_of (load_data s0)))));
    fields; rewrite Hb, E1; reflexivity.
Qed.


(* ------------------------------------------------------------------ *)
(** *** Start-up, selection and the event loop *)

Section LoopFacts.
Context {N : PyNumber}.

Lemma dict_mem_in_keys {V : Type} (k : string) (d : list (string * V)) :
  dict_mem k d = true -> In k (keys d).
Proof.
  unfold dict_mem, keys.
  induction d as [| [k' v] r IH]; cbn; [discriminate |].
  destruct (String.eqb_spec k' k) as [-> | Hne].
  - intros _. left. reflexivity.
  - intros H. right. apply IH, H.
Qed.

End LoopFacts.

(** X5: when the record holds at least one entry,
    [get_most_recent_project] returns, without touching the state, a
    project whose log holds a timestamp that no timestamp of any project
    exceeds in the order of strings. *)
Theorem most_recent_project_holds_latest {N : PyNumber} (s : State)
    (q : string) (logq : tlog) (dq : string)
    (Hq : In (q, logq) (projects_data s)) (Hdq : In dq (keys logq)) :
  exists p logp date,
    get_most_recent_project s = Ret (Some p) s /\
    In (p, logp) (projects_data s) /\
    In date (keys logp) /\
    forall q' log' d',
      In (q', log') (projects_data s) -> In d' (keys log') ->
      (d' <=? date) = true.
Proof. exact (get_most_recent_project_latest s q logq dq Hq Hdq). Qed.

Lemma most_recent_project_holds_latest_witness :
  exists (logp : @tlog exact_number) date,
    get_most_recent_project
      (sample STOPPED 0 None
         [("A", [(stamp1, EFloat (1 # 2))]); ("B", [(stamp2, EFloat 1)])]) =
    Ret (Some "B")
      (sample STOPPED 0 None
         [("A", [(stamp1, EFloat (1 # 2))]); ("B", [(stamp2, EFloat 1)])]) /\
    In date (keys logp) /\ (stamp1 <=? date) = true.
Proof.
  destruct (most_recent_project_holds_latest
              (sample STOPPED 0 None
                 [("A", [(stamp1, EFloat (1 # 2))]);
                  ("B", [(stamp2, EFloat 1)])])
              "A" [(stamp1, EFloat (1 # 2))] stamp1
              (or_introl eq_refl) (or_introl eq_refl))
    as (p & logp & date & H1 & _ & H3 & H4).
  exists logp, date. split; [| split].
  - reflexivity.
  - exact H3.
  - exact (H4 "A" [(stamp1, EFloat (1 # 2))] stamp1
             (or_introl eq_refl) (or_introl eq_refl)).
Defined.


(** X7: in every run a project is active and it is one of the values of
    the combobox as [update_project_list] builds them: the reverse timer
    or a project of the record. *)
Theorem active_project_is_listed {N : PyNumber} (f : file) (w : bool)
    (evs : list event) :
  exists p,
    current_project (run evs (__init__ f w)) = Some p /\
    In p (CountDown :: keys (projects_data (run evs (__init__ f w)))).
Proof.
  pose proof (run_active f w evs) as Ha. unfold active in Ha.
  destruct (current_project (run evs (__init__ f w))) as [p |];
    [| discriminate].
  exists p. split; [reflexivity |].
  apply orb_prop in Ha. destruct Ha as [Ha | Ha].
  - left. symmetry. apply String.eqb_eq, Ha.
  - right. apply dict_mem_in_keys, Ha.
Qed.

(** X8: in every run, a tick delivered by the event loop while the timer
    is not running leaves the session time as it is: before the first
    start nothing is scheduled, and a tick that was scheduled before a
    pause finds the timer paused. *)
Theorem tick_outside_running_keeps_time {N : PyNumber} (f : file) (w : bool)
    (evs : list event)
    (Hst : status (run evs (__init__ f w)) <> RUNNING) :
  session_time (handle Tick (run evs (__init__ f w))) =
  session_time (run evs (__init__ f w)).
Proof. exact (tick_event_needs_running f w evs Hst). Qed.

Lemma tick_outside_running_keeps_time_witness :
  status (run [Toggle; Tick; Toggle] (__init__ (Content record_AB) true))
    <> RUNNING /\
  after_queue (run [Toggle; Tick; Toggle] (__init__ (Content record_AB) true))
    = 1%nat /\
  session_time
    (handle Tick
       (run [Toggle; Tick; Toggle] (__init__ (Content record_AB) true))) = 2.
Proof.
  assert (Hst : status (run [Toggle; Tick; Toggle]
                          (__init__ (Content record_AB) true)) <> RUNNING)
    by (vm_compute; discriminate).
  split; [exact Hst |]. split; [reflexivity |].
  rewrite (tick_outside_running_keeps_time (Content record_AB) true
             [Toggle; Tick; Toggle] Hst).
  reflexivity.
Defined.


(* ------------------------------------------------------------------ *)
(** *** Reading the file at start-up *)

Section LoadFacts.
Context {N : PyNumber}.

(** What [__init__] makes of a file whose record [d] lets
    [get_most_recent_project] return [p]. *)
Lemma init_reads_record (d : pdata) (w : bool) (p : string) :
  (forall s, projects_data s = d ->
             get_most_recent_project s = Ret (Some p) s) ->
  dict_mem p d = true ->
  let s := __init__ (Content d) w in
  projects_data s = d /\
  data_file s = Content d /\
  session_time s = 0 /\
  status s = STOPPED /\
  current_project s = Some (if p =? EmptyString then CountDown else p) /\
  (p <> EmptyString ->
   forall log, dict_get p d = Some log ->
               current_project_hours s = round1 (sum_hours log)).
Proof.
  intros Hrecent Hmem. cbv zeta.
  unfold __init__, load_data. fields.
  unfold try_except, bind, modify. fields.
  rewrite Hrecent by reflexivity.
  destruct (dict_mem_get _ _ Hmem) as [log Hlog].
  unfold get_project_total_time, ret, update_project_list, truthy.
  destruct (String.eqb_spec p EmptyString) as [He | He]; cbn [negb]; fields.
  - cbn [state_of]. fields. cbn [truthy]. rewrite (proj2 (String.eqb_eq _ _) He).
    cbn [negb]. fields.
    repeat apply conj; try reflexivity. intros H. contradiction.
  - cbn [truthy]. rewrite (proj2 (String.eqb_neq _ _) He). cbn [negb].
    fields. rewrite Hlog. cbn [state_of]. fields. cbn [truthy].
    rewrite (proj2 (String.eqb_neq _ _) He). cbn [negb].
    repeat apply conj; try reflexivity.
    intros _ log' Hlog'. assert (E : log' = log) by congruence. subst log'.
    unfold sum_hours. rewrite fold_hours_sum. reflexivity.
Qed.

Lemma in_dict_set {V : Type} (k : string) (v : V) (d : list (string * V)) :
  In (k, v) (dict_set k v d).
Proof.
  induction d as [| [k' v'] r IH]; cbn; [left; reflexivity |].
  destruct (k' =? k); [left; reflexivity | right; exact IH].
Qed.

Lemma in_dict_set_inv {V : Type} (k q : string) (v l : V)
    (d : list (string * V)) :
  In (q, l) (dict_set k v d) -> (q = k /\ l = v) \/ In (q, l) d.
Proof.
  induction d as [| [k' v'] r IH]; cbn.
  - intros [E | []]. injection E as <- <-. left. split; reflexivity.
  - destruct (k' =? k); cbn.
    + intros [E | H]; [injection E as <- <-; left; split; reflexivity |].
      right. right. exact H.
    + intros [E | H]; [right; left; exact E |].
      destruct (IH H) as [H' | H']; [left; exact H' | right; right; exact H'].
Qed.

Lemma ltb_not_leb (a b : string) :
  (a <? b) = true -> (b <=? a) = true -> False.
Proof.
  unfold String.ltb, String.leb. rewrite (String.compare_antisym a b).
  destruct (b ?= a); cbn; discriminate.
Qed.

End LoadFacts.




Section ReopenFacts.
Context {N : PyNumber}.

(** The record and the file that [on_closing] leaves when a project of
    the record is active. *)
Lemma on_closing_record (s : State) (p now : string) (log : tlog) :
  current_project s = Some p -> p <> CountDown ->
  dict_get p (projects_data s) = Some log ->
  let d' := dict_set p (dict_set now (session_hours s) log)
              (projects_data s) in
  projects_data (state_of (on_closing now s)) = d' /\
  (writable s = true -> data_file (state_of (on_closing now s)) = Content d').
Proof.
  intros Hcp Hcd Hlog. cbv zeta.
  assert (Hsave : forall x,
             current_project x = Some p ->
             projects_data x = projects_data s ->
             session_time x = session_time s ->
             writable x = writable s ->
             projects_data (state_of (save_data now x)) =
               dict_set p (dict_set now (session_hours s) log)
                 (projects_data s) /\
             (writable s = true ->
              data_file (state_of (save_data now x)) =
                Content (dict_set p (dict_set now (session_hours s) log)
                           (projects_data s)))).
  { intros x Ex Ed Et Ew. unfold save_data, write_file, session_hours.
    rewrite Ex. cbn [is_countdown].
    rewrite (proj2 (String.eqb_neq p CountDown) Hcd). cbn [negb].
    rewrite Ed, Hlog, Et. cbn [state_of]. fields. rewrite Ew.
    split.
    - destruct (writable s); reflexivity.
    - intros ->. reflexivity. }
  unfold on_closing, bind, gets, modify, ret.
  destruct (status_eqb (status s) RUNNING).
  - apply (Hsave (pause_timer s)); try reflexivity. exact Hcp.
  - apply (Hsave s); try reflexivity. exact Hcp.
Qed.

Lemma in_keys_dict_set {V : Type} (k : string) (v : V)
    (d : list (string * V)) :
  In k (keys (dict_set k v d)).
Proof.
  unfold keys. change k with (fst (k, v)) at 1.
  apply in_map, in_dict_set.
Qed.

End ReopenFacts.

(** X10: closing on a project and starting again comes back to it.  Let
    a project [p] of the record be active, the file writable, and [now]
    later than every timestamp of the record.  After [on_closing], a
    start-up on the file it wrote has the same record, is on [p], stopped
    at 0 seconds, with the stored total the rounded sum of the log of [p]
    including the entry of the close; the session time at the close may
    be 0. *)
Theorem close_then_reopen {N : PyNumber} (s : State) (p now : string)
    (log : tlog) (w' : bool)
    (Hcp : current_project s = Some p)
    (Hne : p <> EmptyString) (Hcd : p <> CountDown)
    (Hlog : dict_get p (projects_data s) = Some log)
    (Hw : writable s = true)
    (Hearlier : forall q l d,
        In (q, l) (projects_data s) -> In d (keys l) -> (d <? now) = true) :
  let s' := state_of (on_closing now s) in
  let s2 := __init__ (data_file s') w' in
  projects_data s2 = projects_data s' /\
  current_project s2 = Some p /\
  current_project_hours s2 =
    round1 (sum_hours (dict_set now (session_hours s) log)) /\
  session_time s2 = 0 /\
  status s2 = STOPPED.
Proof.
  cbv zeta.
  destruct (on_closing_record s p now log Hcp Hcd Hlog) as [Ed Ef].
  rewrite (Ef Hw), Ed.
  set (log' := dict_set now (session_hours s) log).
  set (d' := dict_set p log' (projects_data s)).
  assert (Hin : In (p, log') d') by apply in_dict_set.
  assert (Hnow : In now (keys log')) by apply in_keys_dict_set.
  assert (Hrecent : forall x, projects_data x = d' ->
                              get_most_recent_project x = Ret (Some p) x).
  { intros x Hx.
    destruct (get_most_recent_project_latest x p log' now)
      as (p0 & logp & date & Hp & Hin0 & Hdate & Hmax);
      [rewrite Hx; exact Hin | exact Hnow |].
    rewrite Hp. rewrite Hx in Hin0.
    destruct (in_dict_set_inv _ _ _ _ _ Hin0) as [[-> _] | Hold];
      [reflexivity |].
    exfalso. apply (ltb_not_leb date now).
    - exact (Hearlier p0 logp date Hold Hdate).
    - apply (Hmax p log' now); [rewrite Hx; exact Hin | exact Hnow]. }
  assert (Hmem : dict_mem p d' = true)
    by (apply dict_get_mem with (v := log'); apply dict_get_set_same).
  destruct (init_reads_record d' w' p Hrecent Hmem)
    as (H1 & _ & H3 & H4 & H5 & H6).
  rewrite (proj2 (String.eqb_neq _ _) Hne) in H5.
  repeat apply conj; try assumption.
  apply (H6 Hne). apply dict_get_set_same.
Qed.

Lemma close_then_reopen_witness :
  let s' := state_of (on_closing stamp2 (sample PAUSED 0 (Some "B") record_AB)) in
  current_project (__init__ (data_file s') true) = Some "B" /\
  projects_data (__init__ (data_file s') true) = projects_data s'.
Proof.
  assert (Hne : "B" <> EmptyString) by discriminate.
  assert (Hcd : "B" <> CountDown) by discriminate.
  assert (Hearlier : forall q (l : @tlog exact_number) d,
             In (q, l) record_AB -> In d (keys l) -> (d <? stamp2) = true).
  { intros q l d [E | [E | []]] Hd; injection E as <- <-.
    - destruct Hd as [<- | []]. reflexivity.
    - destruct Hd. }
  destruct (close_then_reopen (sample PAUSED 0 (Some "B") record_AB)
              "B" stamp2 [] true eq_refl Hne Hcd eq_refl eq_refl Hearlier)
    as (H1 & H2 & _).
  split; [exact H2 | exact H1].
Defined.

(** X11: a file that holds a single project without entries is not
    read: [get_most_recent_project] raises on it, [load_data] swallows
    the exception, and the session starts on an empty record with the
    reverse timer active.  The file still holds the project, until the
    next project created under another name rewrites the file without
    it. *)
Theorem init_drops_single_empty_project {N : PyNumber}
    (name text now : string) :
  let s := __init__ (Content (no_entries [name])) true in
  projects_data s = [] /\
  current_project s = Some CountDown /\
  data_file s = Content (no_entries [name]) /\
  (strip text <> EmptyString -> strip text <> CountDown ->
   strip text <> name ->
   exists d,
     data_file (handle (Create text now) s) = Content d /\
     dict_mem (strip text) d = true /\
     dict_mem name d = false).
Proof.
  cbv zeta.
  assert (Es : __init__ (Content (no_entries [name])) true =
               mkState STOPPED 0 (Some CountDown) (of_int 0) [] (0, 0, 0)
                 (LNum (of_int 0)) false O O
                 (Content (no_entries [name])) true) by reflexivity.
  rewrite Es. clear Es.
  set (s0 := mkState _ _ _ _ _ _ _ _ _ _ _ _).
  repeat apply conj; try reflexivity.
  intros Hne Hcd Hname.
  destruct (add_new_project_created text now s0 Hne eq_refl)
    as (s' & H1 & _ & H3 & _ & H5 & _ & _ & H8 & _).
  cbn [handle]. rewrite H1. cbn [state_of].
  exists (projects_data s'). split; [exact (H8 Hcd eq_refl) |].
  split; [exact H3 |].
  unfold dict_mem. rewrite (H5 name) by congruence. reflexivity.
Qed.


(* ------------------------------------------------------------------ *)
(** *** The record and the file along a run *)

Section RecordFacts.
Context {N : PyNumber}.

Lemma update_display_record (s : State) :
  projects_data (update_display s) = projects_data s /\
  data_file (update_display s) = data_file s /\
  writable (update_display s) = writable s.
Proof.
  destruct (update_display_fields s)
    as (_ & _ & _ & _ & _ & _ & E1 & _ & E2 & E3).
  repeat apply conj; assumption.
Qed.

Lemma inc_session_time_record (delta : Z) (s : State) :
  projects_data (inc_session_time delta s) = projects_data s /\
  data_file (inc_session_time delta s) = data_file s /\
  writable (inc_session_time delta s) = writable s.
Proof.
  unfold inc_session_time.
  match goal with
  | |- context [update_display ?x] =>
      destruct (update_display_record x) as (E1 & E2 & E3);
      rewrite E1, E2, E3
  end.
  destruct (negb (status_eqb (status s) PAUSED)), (delta =? 0)%Z; fields;
    try match goal with
      | |- context [(?x <? 0)%Z] => destruct (x <? 0)%Z
      end; repeat apply conj; reflexivity.
Qed.

Lemma save_data_synced (now : string) (s : State) :
  writable s = true -> synced s ->
  synced (state_of (save_data now s)) /\
  writable (state_of (save_data now s)) = true.
Proof.
  unfold synced, save_data, write_file. intros Hw Hs.
  destruct (negb (is_countdown (current_project s)));
    [| split; assumption].
  destruct (current_project s) as [p |]; [| split; assumption].
  destruct (dict_get p (projects_data s)); [| split; assumption].
  cbn [state_of]. fields. rewrite Hw. split; [reflexivity | exact Hw].
Qed.

Lemma add_new_project_writable (text now : string) (s : State) :
  writable (state_of (add_new_project text now s)) = writable s.
Proof.
  unfold add_new_project, bind, gets.
  destruct (_ && _); [| reflexivity].
  unfold modify at 1.
  set (s1 := set_current_project _ _).
  destruct (save_data_frame now s1) as (pd & df & E).
  destruct (save_data now s1) as [[] s2 | x s2]; cbn [state_of] in E |- *;
    subst s2; [| reflexivity].
  unfold modify, ret, update_project_list. cbn [state_of].
  destruct (negb (truthy _)); reflexivity.
Qed.

(** One handler keeps the file equal to the record, unless it creates a
    project under the reserved name. *)
Lemma handle_synced (e : event) (s : State) :
  writable s = true -> synced s -> creates_countdown e = false ->
  synced (handle e s) /\ writable (handle e s) = true.
Proof.
  intros Hw Hs He. unfold synced in *.
  destruct e as [| delta | sel now | text now | | now]; cbn [handle].
  - unfold toggle_timer, resume_timer, pause_timer.
    destruct (status_eqb (status s) RUNNING); [split; assumption |].
    destruct (update_display_record (set_status RUNNING s)) as (E1 & E2 & E3).
    rewrite E1, E2, E3. split; assumption.
  - destruct (inc_session_time_record delta s) as (E1 & E2 & E3).
    rewrite E1, E2, E3. split; assumption.
  - rewrite on_project_selected_unfold, save_if_running_unfold.
    assert (H1 : synced (state_of (if (0 <? session_time s)%Z &&
                                        truthy (current_project s)
                                    then save_data now s else Ret tt s)) /\
                 writable (state_of (if (0 <? session_time s)%Z &&
                                        truthy (current_project s)
                                     then save_data now s else Ret tt s))
                 = true).
    { destruct (_ && _); [apply save_data_synced; assumption |].
      split; assumption. }
    destruct (if (0 <? session_time s)%Z && truthy (current_project s)
              then save_data now s else Ret tt s) as [[] s1 | x s1];
      cbn [state_of] in H1 |- *; [| exact H1].
    destruct (switch_to_keeps_record sel s1) as (E1 & E2 & E3 & _).
    unfold synced in *. rewrite E1, E2, E3. exact H1.
  - cbn [creates_countdown] in He. apply String.eqb_neq in He.
    rewrite add_new_project_writable.
    split; [| exact Hw].
    destruct (String.eqb_spec (strip text) EmptyString) as [E | E].
    { rewrite add_new_project_rejected by (left; exact E). exact Hs. }
    destruct (dict_mem (strip text) (projects_data s)) eqn:Hm.
    { rewrite add_new_project_rejected by (right; exact Hm). exact Hs. }
    destruct (add_new_project_created text now s E Hm)
      as (s' & H1 & _ & _ & _ & _ & _ & _ & H8 & _).
    rewrite H1. cbn [state_of]. exact (H8 He Hw).
  - destruct (after_queue s) as [| k]; [split; assumption |].
    destruct (update_display_record (set_after_queue k s)) as (E1 & E2 & E3).
    rewrite E1, E2, E3. split; assumption.
  - unfold on_closing, bind, gets, modify, ret.
    destruct (status_eqb (status s) RUNNING).
    + apply (save_data_synced now (pause_timer s)); assumption.
    + apply save_data_synced; assumption.
Qed.

Lemma grows_refl (d : pdata) : grows d d.
Proof. intros q log H. exists log. split; [exact H | auto]. Qed.

Lemma grows_trans (d1 d2 d3 : pdata) :
  grows d1 d2 -> grows d2 d3 -> grows d1 d3.
Proof.
  intros H12 H23 q log H.
  destruct (H12 q log H) as (log2 & E2 & M2).
  destruct (H23 q log2 E2) as (log3 & E3 & M3).
  exists log3. split; [exact E3 | auto].
Qed.

Lemma save_data_grows (now : string) (s : State) :
  grows (projects_data s) (projects_data (state_of (save_data now s))).
Proof.
  unfold save_data, write_file.
  destruct (negb (is_countdown (current_project s))); [| apply grows_refl].
  destruct (current_project s) as [p |]; [| apply grows_refl].
  destruct (dict_get p (projects_data s)) as [log |] eqn:Hlog;
    [| apply grows_refl].
  cbn [state_of].
  assert (G : grows (projects_data s)
                (dict_set p (dict_set now (session_hours s) log)
                   (projects_data s))).
  { intros q logq Hq.
    destruct (String.eqb_spec q p) as [-> | Hne].
    - rewrite dict_get_set_same. eexists. split; [reflexivity |].
      intros date Hd. rewrite dict_mem_set.
      assert (logq = log) by congruence. subst logq.
      rewrite Hd. apply orb_true_r.
    - rewrite dict_get_set_other by exact Hne.
      exists logq. split; [exact Hq | auto]. }
  fields. destruct (writable s); fields; exact G.
Qed.

Lemma handle_grows (e : event) (s : State) :
  grows (projects_data s) (projects_data (handle e s)).
Proof.
  destruct e as [| delta | sel now | text now | | now]; cbn [handle].
  - unfold toggle_timer, resume_timer, pause_timer.
    destruct (status_eqb (status s) RUNNING); [apply grows_refl |].
    rewrite (proj1 (update_display_record _)). apply grows_refl.
  - rewrite (proj1 (inc_session_time_record delta s)). apply grows_refl.
  - rewrite on_project_selected_unfold, save_if_running_unfold.
    assert (H1 : grows (projects_data s)
                   (projects_data
                      (state_of (if (0 <? session_time s)%Z &&
                                    truthy (current_project s)
                                 then save_data now s else Ret tt s)))).
    { destruct (_ && _); [apply save_data_grows | apply grows_refl]. }
    destruct (if (0 <? session_time s)%Z && truthy (current_project s)
              then save_data now s else Ret tt s) as [[] s1 | x s1];
      cbn [state_of] in H1 |- *; [| exact H1].
    rewrite (proj1 (switch_to_keeps_record sel s1)). exact H1.
  - unfold add_new_project, bind, gets.
    destruct (negb (strip text =? EmptyString)); cbn [andb];
      [| apply grows_refl].
    destruct (dict_mem (strip text) (projects_data s)) eqn:Hm; cbn [negb];
      [apply grows_refl |].
    unfold modify at 1.
    set (s1 := set_current_project _ _).
    assert (H1 : grows (projects_data s) (projects_data s1)).
    { subst s1. fields. intros q log Hq.
      assert (Hne : q <> strip text).
      { intros ->. unfold dict_mem in Hm. rewrite Hq in Hm. discriminate. }
      rewrite dict_get_set_other by exact Hne.
      exists log. split; [exact Hq | auto]. }
    pose proof (save_data_grows now s1) as H2.
    destruct (save_data now s1) as [[] s2 | x s2]; cbn [state_of] in H2 |- *.
    + unfold modify, ret, update_project_list. cbn [state_of].
      destruct (negb (truthy _)); fields;
        exact (grows_trans _ _ _ H1 H2).
    + exact (grows_trans _ _ _ H1 H2).
  - destruct (after_queue s) as [| k]; [apply grows_refl |].
    rewrite (proj1 (update_display_record _)). apply grows_refl.
  - unfold on_closing, bind, gets, modify, ret.
    destruct (status_eqb (status s) RUNNING).
    + apply (save_data_grows now (pause_timer s)).
    + apply save_data_grows.
Qed.

End RecordFacts.

(** X12: with a writable file, the file follows the record.  From a
    state in which the file holds the record that is in memory, after any
    sequence of events that creates no project under the reserved name
    ["CountDown"], the file again holds the record that is in memory:
    every change of the record is written in the same handler. *)
Theorem file_follows_record {N : PyNumber} (evs : list event) (s : State)
    (Hw : writable s = true) (Hs : synced s)
    (Hev : forallb (fun e => negb (creates_countdown e)) evs = true) :
  synced (run evs s) /\ writable (run evs s) = true.
Proof.
  revert s Hw Hs. induction evs as [| e rest IH]; intros s Hw Hs;
    [split; assumption |].
  cbn [forallb] in Hev. apply andb_prop in Hev. destruct Hev as [He Hrest].
  apply negb_true_iff in He.
  destruct (handle_synced e s Hw Hs He) as [Hs' Hw'].
  destruct e; try (cbn [run]; apply IH; assumption).
  cbn [run]. cbn [handle] in Hs', Hw'.
  destruct (on_closing now s) as [[] s' | x s']; cbn [state_of] in Hs', Hw'.
  - split; assumption.
  - apply IH; assumption.
Qed.

Lemma file_follows_record_witness :
  synced (run [Toggle; Tick; Select "B" stamp2; Create "C" stamp2]
            (__init__ (Content record_AB) true)).
Proof.
  refine (proj1 (file_follows_record
                   [Toggle; Tick; Select "B" stamp2; Create "C" stamp2]
                   (__init__ (Content record_AB) true) _ _ _));
    reflexivity.
Defined.

(** X13: nothing is ever removed from the record.  After any sequence
    of events, from any state, every project that was in the record is
    still in it, and every timestamp of its log is still in its log; a
    handler may add a project, add an entry, or write over the hours
    under a timestamp. *)
Theorem record_only_grows {N : PyNumber} (evs : list event) (s : State) :
  grows (projects_data s) (projects_data (run evs s)).
Proof.
  apply (run_invariant
           (fun s' => grows (projects_data s) (projects_data s'))).
  - intros e s' H. exact (grows_trans _ _ _ H (handle_grows e s')).
  - apply grows_refl.
Qed.


(* ------------------------------------------------------------------ *)
(** *** Selecting a project of the record *)

Section SwitchFacts.
Context {N : PyNumber}.

(** The [elif] branch of [on_project_selected]. *)
Lemma switch_to_known (selected : string) (s : State) (log : tlog) :
  selected <> CountDown -> selected <> EmptyString ->
  dict_get selected (projects_data s) = Some log ->
  exists s',
    switch_to selected s = Ret None s' /\
    current_project s' = Some selected /\
    session_time s' = 0 /\
    status s' = status s /\
    projects_data s' = projects_data s /\
    current_project_hours s' = round1 (sum_hours log) /\
    total_label s' = LNum (round1 (round1 (sum_hours log))).
Proof.
  intros Hcd Hne Hlog. unfold switch_to, bind, modify, gets, ret.
  rewrite (proj2 (String.eqb_neq _ _) Hcd).
  rewrite (dict_get_mem _ _ _ Hlog).
  unfold get_project_total_time. fields. cbn [truthy].
  rewrite (proj2 (String.eqb_neq _ _) Hne). cbn [negb].
  rewrite Hlog. eexists. split; [reflexivity |]. fields.
  unfold sum_hours. rewrite fold_hours_sum.
  repeat apply conj; reflexivity.
Qed.

(** What [add_new_project] writes into the log of the project it
    creates. *)
Lemma add_new_project_log (text now : string) (s : State) :
  strip text <> EmptyString -> strip text <> CountDown ->
  dict_mem (strip text) (projects_data s) = false ->
  exists s',
    add_new_project text now s = Ret tt s' /\
    current_project s' = Some (strip text) /\
    dict_get (strip text) (projects_data s') =
      Some [(now, session_hours s)] /\
    (forall q, q <> strip text ->
       dict_get q (projects_data s') = dict_get q (projects_data s)) /\
    session_time s' = session_time s.
Proof.
  intros Hne Hcd Hfresh. unfold add_new_project, bind, gets.
  rewrite (proj2 (String.eqb_neq _ _) Hne), Hfresh. cbn [negb andb].
  unfold modify at 1.
  set (s1 := set_current_project (Some (strip text))
               (set_projects_data
                  (dict_set (strip text) [] (projects_data s)) s)).
  destruct (save_data_project now (strip text) [] s1 eq_refl Hcd
              (dict_get_set_same _ _ _))
    as (s2 & Hs & (C1 & C2 & _) & _ & Et & Ecp & _).
  rewrite Hs. unfold modify, ret, update_project_list.
  eexists. split; [reflexivity |].
  rewrite Ecp. cbn [truthy current_project s1 set_current_project].
  rewrite (proj2 (String.eqb_neq _ _) Hne). cbn [negb]. fields.
  repeat apply conj.
  - exact Ecp.
  - exact C1.
  - intros q Hq. rewrite (C2 q Hq). apply dict_get_set_other. exact Hq.
  - exact Et.
Qed.

(** One scheduled tick of a running timer on a project. *)
Lemma running_tick (s : State) (n : nat) :
  status s = RUNNING -> is_countdown (current_project s) = false ->
  0 <= session_time s -> after_queue s = S n ->
  status (handle Tick s) = RUNNING /\
  is_countdown (current_project (handle Tick s)) = false /\
  session_time (handle Tick s) = session_time s + 1 /\
  after_queue (handle Tick s) = S n.
Proof.
  intros Hst Hcd Ht Hq. cbn [handle]. rewrite Hq.
  destruct (update_display_fields (set_after_queue n s))
    as (E1 & E2 & E3 & E4 & E5 & _).
  assert (Ha : accrued (set_after_queue n s) = session_time s + 1).
  { unfold accrued. fields. rewrite Hst, Hcd. reflexivity. }
  rewrite Ha in *. fields.
  destruct (Z.ltb_spec (session_time s + 1) 0); [lia |].
  rewrite E2, Hst in E4. cbn [status_eqb] in E4.
  rewrite E1, E2, E4, E5, Hst, Hcd.
  repeat apply conj; try reflexivity. lia.
Qed.

Lemma running_ticks (k : nat) (s : State) (n : nat) :
  status s = RUNNING -> is_countdown (current_project s) = false ->
  0 <= session_time s -> after_queue s = S n ->
  status (run (repeat Tick k) s) = RUNNING /\
  session_time (run (repeat Tick k) s) = session_time s + Z.of_nat k /\
  after_queue (run (repeat Tick k) s) = S n.
Proof.
  revert s. induction k as [| k IH]; intros s Hst Hcd Ht Hq.
  - cbn. repeat apply conj; try assumption. lia.
  - cbn [repeat run].
    destruct (running_tick s n Hst Hcd Ht Hq) as (T1 & T2 & T3 & T4).
    destruct (IH (handle Tick s) T1 T2 ltac:(lia) T4) as (I1 & I2 & I3).
    rewrite I1, I2, I3, T3. repeat apply conj; try reflexivity. lia.
Qed.

End SwitchFacts.

(** X14: selecting a project of the record (not the reverse timer, not
    the empty name) from a state whose active project resolves returns
    [None], makes it the active project, resets the session time to 0
    and leaves the status as it was; the stored total becomes the rounded
    sum of the hours of its log as the record holds it after the save of
    the running session, and the label shows that total rounded again.
    When the selected project is the active one and the session time is
    positive, that log already holds the entry just written. *)
Theorem select_known_project {N : PyNumber} (s : State)
    (selected now : string)
    (Hres : resolvable s = true)
    (Hmem : dict_mem selected (projects_data s) = true)
    (Hcd : selected <> CountDown) (Hne : selected <> EmptyString) :
  exists s1 s' log,
    save_if_running now s = Ret tt s1 /\
    on_project_selected selected now s = Ret None s' /\
    dict_get selected (projects_data s1) = Some log /\
    current_project s' = Some selected /\
    session_time s' = 0 /\
    status s' = status s /\
    projects_data s' = projects_data s1 /\
    current_project_hours s' = round1 (sum_hours log) /\
    total_label s' = LNum (round1 (round1 (sum_hours log))) /\
    (current_project s = Some selected -> 0 < session_time s ->
     forall log0,
       dict_get selected (projects_data s) = Some log0 ->
       log = dict_set now (session_hours s) log0).
Proof.
  destruct (save_if_running_resolvable now s Hres)
    as (s1 & Hs & E1 & _ & _ & _ & _ & _ & Hk & _).
  assert (Hmem1 : dict_mem selected (projects_data s1) = true)
    by (rewrite (dict_mem_keys selected _ _ Hk); exact Hmem).
  destruct (dict_mem_get _ _ Hmem1) as [log Hlog].
  destruct (switch_to_known selected s1 log Hcd Hne Hlog)
    as (s' & Hsw & H1 & H2 & H3 & H4 & H5 & H6).
  exists s1, s', log. rewrite on_project_selected_unfold, Hs.
  repeat apply conj; try assumption; try reflexivity.
  - rewrite H3. exact E1.
  - intros Hcp Hpos log0 Hlog0.
    rewrite save_if_running_unfold in Hs.
    rewrite (proj2 (Z.ltb_lt _ _) Hpos), Hcp in Hs. cbn [truthy andb] in Hs.
    rewrite (proj2 (String.eqb_neq _ _) Hne) in Hs. cbn [negb] in Hs.
    destruct (save_data_project now selected log0 s Hcp Hcd Hlog0)
      as (s1' & Hs' & (C1 & _) & _).
    rewrite Hs' in Hs. injection Hs as ->. congruence.
Qed.

Lemma select_known_project_witness :
  exists s',
    on_project_selected "A" stamp2 working_on_A = Ret None s' /\
    session_time s' = 0 /\
    current_project_hours s' = EFloat 1.
Proof.
  assert (Hcd : "A" <> CountDown) by discriminate.
  assert (Hne : "A" <> EmptyString) by discriminate.
  destruct (select_known_project working_on_A "A" stamp2 eq_refl eq_refl
              Hcd Hne)
    as (s1 & s' & log & _ & H2 & _ & _ & H5 & _ & _ & H8 & _ & H10).
  exists s'. split; [exact H2 |]. split; [exact H5 |].
  rewrite H8.
  rewrite (H10 eq_refl ltac:(cbn; lia) [(stamp1, EFloat (1 # 2))] eq_refl).
  reflexivity.
Defined.

(** X15: a pause does not cancel the tick that is scheduled.  On a timer
    that runs on a project, a pause followed by a start, with no tick
    delivered in between, leaves one more tick scheduled than before, and
    one more second on the clock at once; and since every tick delivered
    while the timer runs schedules its successor, the number of scheduled
    ticks stays at that level for as many ticks as follow. *)
Theorem pause_then_start_adds_a_tick {N : PyNumber} (s : State) (k : nat)
    (Hst : status s = RUNNING)
    (Hcd : is_countdown (current_project s) = false)
    (Ht : 0 <= session_time s) :
  let s' := toggle_timer (toggle_timer s) in
  status s' = RUNNING /\
  session_time s' = session_time s + 1 /\
  after_queue s' = S (after_queue s) /\
  status (run (repeat Tick k) s') = RUNNING /\
  session_time (run (repeat Tick k) s') = session_time s + 1 + Z.of_nat k /\
  after_queue (run (repeat Tick k) s') = S (after_queue s).
Proof.
  cbv zeta.
  assert (E : toggle_timer (toggle_timer s) =
              update_display (set_status RUNNING s)).
  { unfold toggle_timer at 2. rewrite Hst. cbn [status_eqb].
    unfold toggle_timer, pause_timer, resume_timer. fields.
    cbn [status_eqb].
    destruct s; reflexivity. }
  rewrite E.
  destruct (update_display_fields (set_status RUNNING s))
    as (E1 & E2 & E3 & E4 & E5 & _).
  assert (Ha : accrued (set_status RUNNING s) = session_time s + 1).
  { unfold accrued. fields. rewrite Hcd. reflexivity. }
  rewrite Ha in *. fields.
  destruct (Z.ltb_spec (session_time s + 1) 0); [lia |].
  rewrite E2 in E4. cbn [status_eqb] in E4.
  assert (Hmax : session_time (update_display (set_status RUNNING s)) =
                 session_time s + 1) by lia.
  destruct (running_ticks k (update_display (set_status RUNNING s))
              (after_queue s) E2)
    as (R1 & R2 & R3); [rewrite E5; exact Hcd | lia | exact E4 |].
  rewrite R1, R2, R3, Hmax, E2, E4.
  repeat apply conj; reflexivity.
Qed.

Lemma pause_then_start_adds_a_tick_witness :
  let s := run [Toggle] (__init__ (Content record_AB) true) in
  after_queue s = 1%nat /\
  after_queue (toggle_timer (toggle_timer s)) = 2%nat /\
  session_time (run (repeat Tick 2) (toggle_timer (toggle_timer s))) = 4.
Proof.
  cbv zeta.
  pose proof (pause_then_start_adds_a_tick
                (run [Toggle] (__init__ (Content record_AB) true)) 2
                eq_refl eq_refl ltac:(cbn; lia)) as H.
  cbv zeta in H. destruct H as (_ & _ & H3 & _ & H5 & _).
  split; [reflexivity |]. split; [exact H3 | exact H5].
Defined.

(** X16: the session that runs when a project is created is credited to
    the new project twice and never to the project it ran on.  Creating a
    project under a fresh name writes the session's hours into its log
    and keeps the session time; the next selection, at another second,
    writes them into the same log again; no other log changes. *)
Theorem created_project_credited_twice {N : PyNumber} (s : State)
    (text t1 selected t2 : string)
    (Hne : strip text <> EmptyString) (Hcd : strip text <> CountDown)
    (Hfresh : dict_mem (strip text) (projects_data s) = false)
    (Hpos : 0 < session_time s) (Ht : t1 <> t2) :
  let s2 := handle (Select selected t2) (handle (Create text t1) s) in
  dict_get (strip text) (projects_data s2) =
    Some [(t1, session_hours s); (t2, session_hours s)] /\
  forall q, q <> strip text ->
    dict_get q (projects_data s2) = dict_get q (projects_data s).
Proof.
  cbv zeta. cbn [handle].
  destruct (add_new_project_log text t1 s Hne Hcd Hfresh)
    as (s' & H1 & Hcp & Hlog & Hother & Etime).
  rewrite H1. cbn [state_of].
  rewrite on_project_selected_unfold, save_if_running_unfold.
  rewrite Etime, (proj2 (Z.ltb_lt _ _) Hpos), Hcp. cbn [truthy andb].
  rewrite (proj2 (String.eqb_neq _ _) Hne). cbn [negb].
  destruct (save_data_project t2 (strip text) _ s' Hcp Hcd Hlog)
    as (s1 & Hs & (C1 & C2 & _) & _).
  rewrite Hs.
  rewrite (proj1 (switch_to_keeps_record selected s1)).
  split.
  - rewrite C1. unfold session_hours. rewrite Etime. cbn [dict_set].
    rewrite (proj2 (String.eqb_neq _ _) Ht). reflexivity.
  - intros q Hq. rewrite (C2 q Hq). apply Hother, Hq.
Qed.

Lemma created_project_credited_twice_witness :
  dict_get "C"
    (projects_data
       (handle (Select "A" stamp2) (handle (Create "C" stamp1) working_on_A))) =
  Some [(stamp1, EFloat (1 # 2)); (stamp2, EFloat (1 # 2))].
Proof.
  assert (Hne : strip "C" <> EmptyString) by (vm_compute; discriminate).
  assert (Hcd : strip "C" <> CountDown) by (vm_compute; discriminate).
  assert (Ht : stamp1 <> stamp2) by discriminate.
  exact (proj1 (created_project_credited_twice working_on_A "C" stamp1 "A"
                  stamp2 Hne Hcd eq_refl ltac:(cbn; lia) Ht)).
Defined.

(** X17: what [alarm] does to the window.  It always shows the dialog
    once and never raises.  When the bell rings, only the first of the
    six flashes happens: the title is set to the warning once, one pause
    of half a second follows, and the second turn of the loop reads
    [original_title] before it is assigned, which ends the loop; the
    title is left on the warning and is not restored.  When the bell is
    not available, nothing but the dialog happens. *)
Theorem alarm_flashes_once (bell_ok : bool) (w : Window) :
  let w' := fst (alarm_window bell_ok w) in
  dialogs w' = S (dialogs w) /\
  snd (alarm_window bell_ok w) = Some (title w') /\
  (bell_ok = true ->
     title w' = TimesUp /\ naps w' = S (naps w) /\ bells w' = S (bells w)) /\
  (bell_ok = false ->
     title w' = title w /\ naps w' = naps w /\ bells w' = bells w) /\
  flashes (Some (title w)) (seq 0 6) w =
    Done (mkWindow (title w) (bells w) (6 + naps w) (dialogs w)).
Proof.
  destruct bell_ok; cbn; repeat apply conj; try reflexivity;
    intros H; try discriminate; repeat apply conj; reflexivity.
Qed.


(* ------------------------------------------------------------------ *)
(** *** The status along a run, and a missing file *)

Section StatusFacts.
Context {N : PyNumber}.

Lemma save_data_status (now : string) (s : State) :
  status (state_of (save_data now s)) = status s.
Proof.
  destruct (save_data_frame now s) as (pd & df & E). rewrite E. reflexivity.
Qed.

Lemma handle_not_stopped (e : event) (s : State) :
  status s <> STOPPED -> status (handle e s) <> STOPPED.
Proof.
  intros H. destruct e as [| delta | sel now | text now | | now];
    cbn [handle].
  - unfold toggle_timer, resume_timer, pause_timer.
    destruct (status_eqb (status s) RUNNING); [discriminate |].
    apply update_display_not_stopped. discriminate.
  - unfold inc_session_time. apply update_display_not_stopped.
    destruct (negb (status_eqb (status s) PAUSED)) eqn:Hp;
      destruct (delta =? 0)%Z; fields;
      try match goal with
        | |- context [(?x <? 0)%Z] => destruct (x <? 0)%Z
        end; fields; try discriminate; exact H.
  - rewrite on_project_selected_unfold.
    destruct (save_if_running_keeps_session now s) as (_ & E1 & _).
    destruct (save_if_running now s) as [[] s1 | x s1]; cbn [state_of] in *.
    + destruct (switch_to_keeps_record sel s1) as (_ & _ & _ & F1 & _).
      rewrite F1, E1. exact H.
    + rewrite E1. exact H.
  - unfold add_new_project, bind, gets.
    destruct (_ && _); [| exact H].
    unfold modify at 1.
    set (s1 := set_current_project _ _).
    destruct (save_data_frame now s1) as (pd & df & E).
    destruct (save_data now s1) as [[] s2 | x s2]; cbn [state_of] in E |- *;
      subst s2; [| exact H].
    unfold modify, ret, update_project_list. cbn [state_of].
    destruct (negb (truthy _)); exact H.
  - destruct (after_queue s) as [| k]; [exact H |].
    apply update_display_not_stopped. exact H.
  - unfold on_closing, bind, gets, modify, ret.
    destruct (status_eqb (status s) RUNNING).
    + rewrite save_data_status. discriminate.
    + rewrite save_data_status. exact H.
Qed.

Lemma adjust_ends_paused (delta : Z) (s : State) :
  status (inc_session_time delta s) = PAUSED /\
  after_queue (inc_session_time delta s) = after_queue s.
Proof.
  unfold inc_session_time.
  match goal with
  | |- context [update_display ?x] =>
      assert (Hx : status x = PAUSED /\ 0 <= session_time x /\
                   after_queue x = after_queue s)
  end.
  { destruct (negb (status_eqb (status s) PAUSED)) eqn:Hp;
      destruct (delta =? 0)%Z; fields; unfold pause_timer; fields;
      try match goal with
        | |- context [(?x <? 0)%Z] => destruct (Z.ltb_spec x 0)
        end; fields; repeat apply conj; try reflexivity; try lia;
      destruct (status s); try discriminate; reflexivity. }
  destruct Hx as (X1 & X2 & X3).
  match goal with
  | |- context [update_display ?x] =>
      destruct (update_display_paused x X1 X2) as (_ & U2 & _ & U4)
  end.
  rewrite U2, U4. split; [reflexivity | exact X3].
Qed.

End StatusFacts.

(** X18: [STOPPED] is the status before the first start only.  Once the
    status is [PAUSED] or [RUNNING], no sequence of events brings it back
    to [STOPPED]; and one click on the timer button, or one adjustment,
    leaves [STOPPED] for good. *)
Theorem stopped_only_before_first_start {N : PyNumber} (evs : list event)
    (s : State) :
  (status s <> STOPPED -> status (run evs s) <> STOPPED) /\
  status (run evs (handle Toggle s)) <> STOPPED /\
  (forall delta, status (run evs (handle (Adjust delta) s)) <> STOPPED).
Proof.
  assert (Hrun : forall x, status x <> STOPPED ->
                           status (run evs x) <> STOPPED).
  { intros x. apply (run_invariant (fun y => status y <> STOPPED)).
    intros e y. apply handle_not_stopped. }
  split; [apply Hrun |]. split.
  - apply Hrun. cbn [handle]. unfold toggle_timer, resume_timer, pause_timer.
    destruct (status_eqb (status s) RUNNING); [discriminate |].
    apply update_display_not_stopped. discriminate.
  - intros delta. apply Hrun. cbn [handle].
    rewrite (proj1 (adjust_ends_paused delta s)). discriminate.
Qed.


(** X19: without a readable file the session starts empty, and the first
    project created makes the file.  When [DATA_FILE] is missing or does
    not parse, start-up raises nothing and gives an empty record, the
    reverse timer active, the timer stopped at 0 seconds, the file as it
    was; creating a project then writes a file that holds exactly that
    project, with one entry for the session so far. *)
Theorem init_without_file {N : PyNumber} (f : file) (text now : string)
    (Hf : f = Absent \/ f = Corrupt) :
  let s := __init__ f true in
  projects_data s = [] /\
  current_project s = Some CountDown /\
  session_time s = 0 /\
  status s = STOPPED /\
  data_file s = f /\
  (strip text <> EmptyString -> strip text <> CountDown ->
   exists d,
     data_file (handle (Create text now) s) = Content d /\
     keys d = [strip text] /\
     dict_get (strip text) d = Some [(now, session_hours s)]).
Proof.
  cbv zeta.
  assert (Es : __init__ f true =
               mkState STOPPED 0 (Some CountDown) (of_int 0) [] (0, 0, 0)
                 (LNum (of_int 0)) false O O f true)
    by (destruct Hf; subst f; reflexivity).
  rewrite Es. clear Es.
  set (s0 := mkState _ _ _ _ _ _ _ _ _ _ _ _).
  repeat apply conj; try reflexivity.
  intros Hne Hcd.
  destruct (add_new_project_created text now s0 Hne eq_refl)
    as (s' & H1 & _ & _ & H4 & _ & _ & _ & H8 & _).
  destruct (add_new_project_log text now s0 Hne Hcd eq_refl)
    as (s'' & H1' & _ & Hlog & _).
  rewrite H1 in H1'. injection H1' as <-.
  cbn [handle]. rewrite H1. cbn [state_of].
  exists (projects_data s').
  split; [exact (H8 Hcd eq_refl) |]. split; [exact H4 | exact Hlog].
Qed.

Lemma init_without_file_witness :
  (@Absent exact_number = Absent \/ @Absent exact_number = Corrupt) /\
  exists d,
    data_file (handle (Create "A" stamp1) (__init__ Absent true)) =
      Content d /\
    keys d = ["A"].
Proof.
  assert (Hf : @Absent exact_number = Absent \/ @Absent exact_number = Corrupt)
    by (left; reflexivity).
  assert (Hne : strip "A" <> EmptyString) by (vm_compute; discriminate).
  assert (Hcd : strip "A" <> CountDown) by (vm_compute; discriminate).
  split; [exact Hf |].
  destruct (init_without_file Absent "A" stamp1 Hf) as (_ & _ & _ & _ & _ & H).
  destruct (H Hne Hcd) as (d & H1 & H2 & _).
  exists d. split; [exact H1 | exact H2].
Defined.
